(** * Feedback system: store, response generator and submission path

    A shallow embedding of [utils/database.py], [utils/llm_handler.py] and
    the form and submission block of [pages/1_user_dashboard.py], with the
    properties of the specification stated and settled against it. *)

From Stdlib Require Import ZArith QArith Qround Qabs Qpower Qreduction Qcanon Lqa.
From Stdlib Require Import String Ascii List Lia DecimalString.
From stdpp Require Import gmap list sorting.

Local Open Scope Z_scope.

(** * Python values *)

(** A Python [str] is a sequence of Unicode code points; [len] counts code
    points. *)
Definition pystr : Type := list N.

(** An ASCII literal of the source as a [pystr]. *)
Definition lit (s : string) : pystr :=
  map N_of_ascii (list_ascii_of_string s).

(** [str(n)] for an [int], also what an f-string does with [{n}]. *)
Definition str_of_int (n : Z) : pystr :=
  lit (NilZero.string_of_int (Z.to_int n)).

(** [c.isspace()] for one code point: the Unicode white space characters. *)
Definition isspace (c : N) : bool :=
  ((9 <=? c) && (c <=? 13) || (28 <=? c) && (c <=? 32)
   || (c =? 133) || (c =? 160) || (c =? 5760)
   || (8192 <=? c) && (c <=? 8202)
   || (c =? 8232) || (c =? 8233) || (c =? 8239) || (c =? 8287)
   || (c =? 12288))%N.

Fixpoint lstrip (s : pystr) : pystr :=
  match s with
  | c :: s' => if isspace c then lstrip s' else s
  | [] => []
  end.

Definition rstrip (s : pystr) : pystr := rev (lstrip (rev s)).

(** [s.strip()] *)
Definition strip (s : pystr) : pystr := rstrip (lstrip s).

(** [len(s)] *)
Definition len (s : pystr) : Z := Z.of_nat (length s).

(** Truth value of a [str]: the empty string is false. *)
Definition truthy (s : pystr) : bool :=
  match s with [] => false | _ => true end.

(** [needle in hay] *)
Definition contains (needle hay : pystr) : Prop :=
  exists pre post, hay = pre ++ needle ++ post.

(** Exceptions, with the two classes the code tells apart: [Exception]
    raised by the code itself with a message, and the errors raised by the
    libraries it calls. All are subclasses of [Exception]. *)
Inductive exn : Type :=
  | Exception (msg : pystr)
  | RequestException (msg : pystr)
  | KeyError (msg : pystr)
  | ValueError (msg : pystr)
  | OverflowError (msg : pystr)
  | OtherError (msg : pystr).

(** [str(e)] *)
Definition exn_str (e : exn) : pystr :=
  match e with
  | Exception m | RequestException m | KeyError m | ValueError m
  | OverflowError m | OtherError m => m
  end.

(** * Binary floating point

    A finite binary64 number is held by its exact value, a rational.
    Overflow and subnormal numbers are left out: the averages of the
    store are far from both. *)

Module binary64.

(** Rounding to the nearest integer, a tie going to the even one. *)
Definition round_half_even (q : Q) : Z :=
  let f := Qfloor q in
  match (q - inject_Z f ?= 1 # 2)%Q with
  | Lt => f
  | Eq => if Z.even f then f else f + 1
  | Gt => f + 1
  end.

(** The exponent [e] of the last place of the significand of [q]:
    [2 ^ 52 <= |q| / 2 ^ e < 2 ^ 53]. The first guess, from the sizes of
    numerator and denominator, is right or one too large. *)
Definition ulp_exponent (q : Q) : Z :=
  let e0 := Z.log2 (Z.abs (Qnum q)) - Z.log2 (Zpos (Qden q)) - 52 in
  if Qle_bool (2 ^ 52) (Qabs q * 2 ^ (- e0))%Q then e0 else e0 - 1.

(** The binary64 number nearest to [q], a tie going to the even
    significand: what every operation below returns for its exact
    result. *)
Definition nearest (q : Q) : Q :=
  if Qeq_bool q 0 then 0%Q
  else
    let e := ulp_exponent q in
    Qred (inject_Z (round_half_even (q * 2 ^ (- e))%Q) * 2 ^ e)%Q.

(** [(double) n] for an integer. *)
Definition of_int (n : Z) : Q := nearest (inject_Z n).

(** [x / y] *)
Definition div (x y : Q) : Q := nearest (x / y)%Q.

(** Python's [round(x, ndigits)] on a float: the decimal expansion of the
    exact value of [x] is rounded at [ndigits] places, a tie going to the
    even digit, and the float nearest to that decimal is returned. *)
Definition round_ndigits (x : Q) (ndigits : Z) : Q :=
  nearest (inject_Z (round_half_even (x * 10 ^ ndigits)%Q) / 10 ^ ndigits)%Q.

(** The truth value of a float: false for zero. *)
Definition truthy (x : Q) : bool := negb (Qeq_bool x 0).

End binary64.

(** * utils/database.py *)

Module database.

(** One row of the table [feedback]. [timestamp] is the value of
    [CURRENT_TIMESTAMP], a date and time with a resolution of one second,
    held here as the number of seconds since the epoch; the three derived
    columns are nullable. *)
Record Row : Type := mkRow {
  id : Z;
  timestamp : Z;
  rating : Z;
  review_text : pystr;
  user_response : option pystr;
  admin_summary : option pystr;
  recommended_actions : option pystr
}.

(** The database file: the rows of [feedback] in rowid order, and the
    largest id ever given out ([AUTOINCREMENT] keeps it in
    [sqlite_sequence], so that ids are never reused). *)
Record FeedbackDatabase : Type := mkDb {
  feedback : list Row;
  sqlite_sequence : Z
}.

(** [_create_tables] on a file that does not exist yet. *)
Definition _create_tables : FeedbackDatabase :=
  {| feedback := []; sqlite_sequence := 0 |}.

(** An [INTEGER] column holds a 64-bit signed integer; binding a larger
    Python [int] raises [OverflowError]. *)
Definition sqlite_int (n : Z) : bool :=
  (- 2 ^ 63 <=? n) && (n <? 2 ^ 63).

(** [insert_feedback]; [now] is the clock read by [CURRENT_TIMESTAMP]. The
    three derived arguments default to [None]. *)
Definition insert_feedback (now : Z) (rating : Z) (review_text : pystr)
    (user_response admin_summary recommended_actions : option pystr)
    (db : FeedbackDatabase) : exn + FeedbackDatabase * Z :=
  if sqlite_int rating then
    let feedback_id := sqlite_sequence db + 1 in
    inr ({| feedback := feedback db ++
              [mkRow feedback_id now rating review_text
                     user_response admin_summary recommended_actions];
            sqlite_sequence := feedback_id |},
         feedback_id)
  else
    inl (OverflowError (lit "Python int too large to convert to SQLite INTEGER")).

(** [ORDER BY timestamp DESC]: rows with a larger timestamp first; SQLite
    keeps rows with equal timestamps in the order of the scan, that is by
    ascending rowid. *)
Fixpoint order_insert (r : Row) (sorted : list Row) : list Row :=
  match sorted with
  | [] => [r]
  | x :: rest =>
      if timestamp r <? timestamp x then x :: order_insert r rest
      else r :: sorted
  end.

Definition order_by_timestamp_desc (rows : list Row) : list Row :=
  foldr order_insert [] rows.

(** [get_all_feedback]: the rows of the data frame. *)
Definition get_all_feedback (db : FeedbackDatabase) : list Row :=
  order_by_timestamp_desc (feedback db).

(** The columns of the data frame, in the order of the [SELECT]. *)
Definition get_all_feedback_columns : list pystr :=
  [lit "id"; lit "timestamp"; lit "rating"; lit "review_text";
   lit "user_response"; lit "admin_summary"; lit "recommended_actions"].

(** [get_feedback_by_id] *)
Definition get_feedback_by_id (feedback_id : Z) (db : FeedbackDatabase)
  : option Row :=
  head (filter (fun r => id r = feedback_id) (feedback db)).

(** [get_feedback_by_rating] *)
Definition get_feedback_by_rating (rating_ : Z) (db : FeedbackDatabase)
  : list Row :=
  order_by_timestamp_desc (filter (fun r => rating r = rating_) (feedback db)).

(** [LIMIT n]: the first [n] rows; a negative [n] means no limit. *)
Definition sql_limit (n : Z) (rows : list Row) : list Row :=
  if n <? 0 then rows else take (Z.to_nat n) rows.

(** [get_recent_feedback] *)
Definition get_recent_feedback (limit : Z) (db : FeedbackDatabase)
  : list Row :=
  sql_limit limit (order_by_timestamp_desc (feedback db)).

(** [delete_feedback]: the new database and [cursor.rowcount > 0]. *)
Definition delete_feedback (feedback_id : Z) (db : FeedbackDatabase)
  : FeedbackDatabase * bool :=
  let rowcount :=
    length (filter (fun r => id r = feedback_id) (feedback db)) in
  ({| feedback := filter (fun r => id r <> feedback_id) (feedback db);
      sqlite_sequence := sqlite_sequence db |},
   bool_decide (0 < rowcount)%nat).

(** [clear_all_data] *)
Definition clear_all_data (db : FeedbackDatabase) : FeedbackDatabase :=
  {| feedback := []; sqlite_sequence := sqlite_sequence db |}.

(** ** get_statistics *)

(** One step of [GROUP BY rating ... ORDER BY rating]: the groups are kept
    by ascending rating, each with its [COUNT]. *)
Fixpoint group_count (r : Z) (groups : list (Z * Z)) : list (Z * Z) :=
  match groups with
  | [] => [(r, 1)]
  | (k, c) :: rest =>
      if r <? k then (r, 1) :: groups
      else if r =? k then (k, c + 1) :: rest
      else (k, c) :: group_count r rest
  end.

(** [SELECT rating, COUNT( * ) FROM feedback GROUP BY rating ORDER BY rating] *)
Definition group_by_rating (rows : list Row) : list (Z * Z) :=
  foldl (fun groups r => group_count (rating r) groups) [] rows.

(** The dict comprehension [{row[0]: row[1] for row in rows}]: a later row
    with the same key replaces an earlier one. *)
Definition dict_of_rows (rows : list (Z * Z)) : gmap Z Z :=
  foldl (fun d row => <[row.1 := row.2]> d) ∅ rows.

(** [d.values()] and [sum] *)
Definition values (d : gmap Z Z) : list Z := (map_to_list d).*2.

Definition sum (l : list Z) : Z := foldr Z.add 0 l.

(** [WHERE datetime(timestamp) >= datetime('now', '-1 day')]: both sides
    are dates with a resolution of one second, compared as such; one day
    is 86400 seconds. *)
Definition within_last_day (now : Z) (r : Row) : bool :=
  now - 86400 <=? timestamp r.

(** A Python number: [average_rating] is the [int] 0 or a [float]. *)
Inductive number : Type :=
  | Int (n : Z)
  | Float (x : Q).

Record Statistics : Type := mkStatistics {
  total_submissions : Z;
  average_rating : number;
  rating_distribution : gmap Z Z;
  recent_submissions_24h : Z
}.

(** [AVG] over the integers of a column with at least one row: SQLite
    adds them up as a 64-bit integer and divides [(double) sum] by
    [(double) count]. (A sum beyond 64 bits, which SQLite adds up in
    floating point, is left out.) *)
Definition sql_avg (column : list Z) : Q :=
  binary64.div (binary64.of_int (sum column))
               (binary64.of_int (Z.of_nat (length column))).

(** [SELECT AVG(rating) FROM feedback]: [NULL] over no rows. *)
Definition avg_rating_query (db : FeedbackDatabase) : option Q :=
  match feedback db with
  | [] => None
  | rows => Some (sql_avg (map rating rows))
  end.

(** [cursor.fetchone()[0] or 0] *)
Definition or_zero (v : option Q) : number :=
  match v with
  | Some x => if binary64.truthy x then Float x else Int 0
  | None => Int 0
  end.

(** [round(avg_rating, 2)]: an [int] is returned as it is. *)
Definition round2 (v : number) : number :=
  match v with
  | Int n => Int n
  | Float x => Float (binary64.round_ndigits x 2)
  end.

(** [get_statistics], at clock [now]. *)
Definition get_statistics (now : Z) (db : FeedbackDatabase) : Statistics :=
  let total_count := Z.of_nat (length (feedback db)) in
  let avg_rating := or_zero (avg_rating_query db) in
  let rating_dist := dict_of_rows (group_by_rating (feedback db)) in
  let recent_count :=
    Z.of_nat (length (filter (fun r => within_last_day now r = true)
                             (feedback db))) in
  {| total_submissions := total_count;
     average_rating := round2 avg_rating;
     rating_distribution := rating_dist;
     recent_submissions_24h := recent_count |}.

(** ** export_to_csv *)

(** A cell of the data frame; [DNull] is SQL [NULL]. *)
Inductive cell : Type :=
  | DInt (n : Z)
  | DTimestamp (t : Z)
  | DText (s : pystr)
  | DNull.

Definition text_cell (v : option pystr) : cell :=
  match v with Some s => DText s | None => DNull end.

(** The cells of one row, in the order of the columns. *)
Definition row_cells (r : Row) : list cell :=
  [DInt (id r); DTimestamp (timestamp r); DInt (rating r);
   DText (review_text r); text_cell (user_response r);
   text_cell (admin_summary r); text_cell (recommended_actions r)].

(** A CSV file written by [to_csv(filepath, index=False)]: the header row
    with the names of the columns, then one data row for each row of the
    data frame. *)
Record CsvFile : Type := mkCsv {
  header : list pystr;
  data_rows : list (list cell)
}.

Definition to_csv (columns : list pystr) (rows : list Row) : CsvFile :=
  {| header := columns; data_rows := map row_cells rows |}.

(** [export_to_csv]: the file written at [filepath] and the value
    returned, [len(df)]. *)
Definition export_to_csv (filepath : pystr) (db : FeedbackDatabase)
  : (pystr * CsvFile) * Z :=
  let df := get_all_feedback db in
  ((filepath, to_csv get_all_feedback_columns df), Z.of_nat (length df)).

End database.

(** * A state and exception monad for the effectful code *)

Definition M (S A : Type) : Type := S -> (exn + A) * S.

Definition ret {S A} (a : A) : M S A := fun s => (inr a, s).

Definition raise {S A} (e : exn) : M S A := fun s => (inl e, s).

Definition bind {S A B} (m : M S A) (k : A -> M S B) : M S B :=
  fun s =>
    match m s with
    | (inr a, s') => k a s'
    | (inl e, s') => (inl e, s')
    end.

(** [try: m except Exception as e: handler(e)] *)
Definition try_except {S A} (m : M S A) (handler : exn -> M S A) : M S A :=
  fun s =>
    match m s with
    | (inr a, s') => (inr a, s')
    | (inl e, s') => handler e s'
    end.

Notation "x <- m ;; k" := (bind m (fun x => k))
  (at level 100, m at next level, right associativity).

(** * utils/llm_handler.py *)

Module llm_handler.

Record LLMHandler : Type := mkLLM {
  api_key : pystr;
  model : pystr;
  api_url : pystr
}.

(** [a or b] on optional strings. *)
Definition or_else (a b : option pystr) : option pystr :=
  match a with
  | Some s => if truthy s then a else b
  | None => b
  end.

(** [LLMHandler.__init__]; [env_key] is [os.getenv('OPENROUTER_API_KEY')]. *)
Definition __init__ (api_key_ model_ env_key : option pystr)
  : exn + LLMHandler :=
  match or_else api_key_ env_key with
  | Some k =>
      if truthy k then
        inr {| api_key := k;
               model := default (lit "mistralai/mistral-7b-instruct:free")
                                (or_else model_ None);
               api_url := lit "https://openrouter.ai/api/v1/chat/completions" |}
      else inl (ValueError (lit "No API key provided. Set OPENROUTER_API_KEY environment variable."))
  | None => inl (ValueError (lit "No API key provided. Set OPENROUTER_API_KEY environment variable."))
  end.

(** One POST to the endpoint. The temperature is a decimal fraction. *)
Record Request : Type := mkRequest {
  url : pystr;
  authorization : pystr;
  req_model : pystr;
  content : pystr;
  temperature : Q;
  max_tokens : Z;
  timeout : Z
}.

(** What the request and the decoding of its answer come to:
    [result['choices'][0]['message']['content']] is a string, or one of the
    steps raises. *)
Inductive Response : Type :=
  | Content (text : pystr)
  | Raises (e : exn).

(** The endpoint: the answer to the [n]-th request sent. *)
Definition Remote : Type := nat -> Request -> Response.

(** The network state: the requests sent so far, oldest first. *)
Definition Net : Type := list Request.

Section handler.

Variable remote : Remote.

(** The headers and the JSON body of the request. *)
Definition post_data (self : LLMHandler) (prompt : pystr)
    (temperature_ : Q) (max_tokens_ : Z) : Request :=
  {| url := api_url self;
     authorization := lit "Bearer " ++ api_key self;
     req_model := model self;
     content := prompt;
     temperature := temperature_;
     max_tokens := max_tokens_;
     timeout := 30 |}.

(** [_call_api] *)
Definition _call_api (self : LLMHandler) (prompt : pystr)
    (temperature_ : Q) (max_tokens_ : Z) : M Net pystr :=
  fun sent =>
    let data := post_data self prompt temperature_ max_tokens_ in
    let sent' := sent ++ [data] in
    match remote (length sent) data with
    | Content text => (inr (strip text), sent')
    | Raises (RequestException m) =>
        (inl (Exception (lit "OpenRouter API request failed: " ++ m)), sent')
    | Raises (KeyError m) =>
        (inl (Exception (lit "Unexpected API response format: " ++ m)), sent')
    | Raises e => (inl e, sent')
    end.

Definition nl : pystr := [10%N].
Definition quote : pystr := [34%N].
Definition bullet : pystr := [8226%N].

Definition user_response_prompt (rating : Z) (review_text : pystr) : pystr :=
  lit "You are a friendly customer service representative for a business. " ++ nl ++
  lit "A customer has left a " ++ str_of_int rating ++
  lit "-star review with the following feedback:" ++ nl ++ nl ++
  quote ++ review_text ++ quote ++ nl ++ nl ++
  lit "Generate a warm, empathetic, and professional response that:" ++ nl ++
  lit "1. Thanks them for their feedback" ++ nl ++
  lit "2. Acknowledges their specific points (positive or negative)" ++ nl ++
  lit "3. For negative reviews: Apologizes and shows commitment to improvement" ++ nl ++
  lit "4. For positive reviews: Expresses gratitude and encourages return visits" ++ nl ++
  lit "5. Is concise (2-3 sentences max)" ++ nl ++ nl ++
  lit "Keep the tone friendly and genuine. Do not use generic corporate language." ++ nl ++ nl ++
  lit "Response:".

Definition user_response_fallback (rating : Z) : pystr :=
  lit "Thank you for your " ++ str_of_int rating ++
  lit "-star review! We appreciate your feedback and will use it to improve our service.".

(** [generate_user_response] *)
Definition generate_user_response (self : LLMHandler) (rating : Z)
    (review_text : pystr) : M Net pystr :=
  try_except
    (response <- _call_api self (user_response_prompt rating review_text)
                   (7 # 10)%Q 200 ;;
     ret response)
    (fun e => ret (user_response_fallback rating)).

Definition admin_summary_prompt (rating : Z) (review_text : pystr) : pystr :=
  lit "Summarize this " ++ str_of_int rating ++
  lit "-star customer review in 1-2 sentences for a manager's dashboard. " ++ nl ++
  lit "Focus on the key points and overall sentiment." ++ nl ++ nl ++
  lit "Review: " ++ quote ++ review_text ++ quote ++ nl ++ nl ++
  lit "Summary:".

Definition admin_summary_fallback (rating : Z) : pystr :=
  if rating <=? 2 then
    lit "Customer expressed dissatisfaction (" ++ str_of_int rating ++
    lit " stars). Review requires attention."
  else if rating =? 3 then
    lit "Mixed review (" ++ str_of_int rating ++
    lit " stars). Customer had both positive and negative experiences."
  else
    lit "Positive review (" ++ str_of_int rating ++
    lit " stars). Customer had a good experience.".

(** [generate_admin_summary] *)
Definition generate_admin_summary (self : LLMHandler) (rating : Z)
    (review_text : pystr) : M Net pystr :=
  try_except
    (response <- _call_api self (admin_summary_prompt rating review_text)
                   (3 # 10)%Q 150 ;;
     ret response)
    (fun e => ret (admin_summary_fallback rating)).

Definition recommended_actions_prompt (rating : Z) (review_text : pystr)
  : pystr :=
  lit "Based on this " ++ str_of_int rating ++
  lit "-star customer review, suggest 2-3 specific, actionable steps " ++ nl ++
  lit "the business should take. Format as bullet points." ++ nl ++ nl ++
  lit "Review: " ++ quote ++ review_text ++ quote ++ nl ++ nl ++
  lit "Consider:" ++ nl ++
  lit "- For low ratings (1-2): Immediate damage control, specific fixes" ++ nl ++
  lit "- For medium ratings (3): Identify areas for improvement" ++ nl ++
  lit "- For high ratings (4-5): Reinforce what's working, small enhancements" ++ nl ++ nl ++
  lit "Recommended Actions:".

Definition recommended_actions_fallback (rating : Z) : pystr :=
  if rating <=? 2 then
    bullet ++ lit " Contact customer directly to address concerns" ++ nl ++
    bullet ++ lit " Review and fix mentioned issues" ++ nl ++
    bullet ++ lit " Implement quality control measures"
  else if rating =? 3 then
    bullet ++ lit " Analyze feedback for improvement areas" ++ nl ++
    bullet ++ lit " Follow up with customer on experience" ++ nl ++
    bullet ++ lit " Train staff on customer service"
  else
    bullet ++ lit " Thank customer for positive feedback" ++ nl ++
    bullet ++ lit " Continue current practices" ++ nl ++
    bullet ++ lit " Share success with team".

(** [generate_recommended_actions] *)
Definition generate_recommended_actions (self : LLMHandler) (rating : Z)
    (review_text : pystr) : M Net pystr :=
  try_except
    (response <- _call_api self
                   (recommended_actions_prompt rating review_text)
                   (4 # 10)%Q 250 ;;
     ret response)
    (fun e => ret (recommended_actions_fallback rating)).

(** The dict returned by [process_feedback], with its three keys. *)
Record Responses : Type := mkResponses {
  user_response : pystr;
  admin_summary : pystr;
  recommended_actions : pystr
}.

(** [process_feedback] *)
Definition process_feedback (self : LLMHandler) (rating : Z)
    (review_text : pystr) : M Net Responses :=
  u <- generate_user_response self rating review_text ;;
  a <- generate_admin_summary self rating review_text ;;
  r <- generate_recommended_actions self rating review_text ;;
  ret {| user_response := u; admin_summary := a;
         recommended_actions := r |}.

End handler.

(** [get_llm_handler]: the module keeps one handler, built on first use. *)
Definition get_llm_handler (api_key_ model_ env_key : option pystr)
    (_llm_instance : option LLMHandler)
  : exn + LLMHandler * option LLMHandler :=
  match _llm_instance with
  | Some h => inr (h, Some h)
  | None =>
      match __init__ api_key_ model_ env_key with
      | inr h => inr (h, Some h)
      | inl e => inl e
      end
  end.

End llm_handler.

(** * pages/1_user_dashboard.py: the form and the submission block *)

Module user_dashboard.

(** The options of the rating slider, and its initial value. *)
Definition rating_options : list Z := [1; 2; 3; 4; 5].
Definition rating_default : Z := 5.

(** [st.session_state.response_data] *)
Record ResponseData : Type := mkResponseData {
  feedback_id : Z;
  rating : Z;
  review : pystr;
  response : pystr
}.

(** What the process holds between two runs of the script: the database
    (file and [_db_instance]), the handler kept by [llm_handler], the
    requests sent to the endpoint, and the session state ([submitted] is
    true when [response_data] is set). *)
Record World : Type := mkWorld {
  db : database.FeedbackDatabase;
  _llm_instance : option llm_handler.LLMHandler;
  sent : llm_handler.Net;
  response_data : option ResponseData
}.

(** What one run finds around it: the clock, the environment variable and
    the endpoint. *)
Record Env : Type := mkEnv {
  now : Z;
  OPENROUTER_API_KEY : option pystr;
  remote : llm_handler.Remote
}.

(** What the user is shown at the end of the block. A validation error is
    [st.error] before anything is processed; a missing key is [st.error]
    and [st.stop()]; [ErrorShown] is the [except Exception] branch;
    [Submitted] is the rerun with the session state set. *)
Inductive Outcome : Type :=
  | ValidationError (msg : pystr)
  | ConfigurationError (msg : pystr)
  | ErrorShown (msg : pystr)
  | Submitted (data : ResponseData).

Definition cross_mark : pystr := [10060%N].
Definition warning_sign : pystr := [9888%N; 65039%N].

(** [get_llm_handler(api_key)] on the handler kept in the world. *)
Definition get_llm_handler (api_key_ : option pystr) (env : Env)
  : M World llm_handler.LLMHandler :=
  fun w =>
    match llm_handler.get_llm_handler api_key_ None (OPENROUTER_API_KEY env)
            (_llm_instance w) with
    | inr (h, inst) =>
        (inr h, {| db := db w; _llm_instance := inst; sent := sent w;
                   response_data := response_data w |})
    | inl e => (inl e, w)
    end.

(** [llm.process_feedback(rating, review_text)] *)
Definition process_feedback (env : Env) (llm : llm_handler.LLMHandler)
    (rating_ : Z) (review_text : pystr) : M World llm_handler.Responses :=
  fun w =>
    let '(r, sent') :=
      llm_handler.process_feedback (remote env) llm rating_ review_text
        (sent w) in
    (r, {| db := db w; _llm_instance := _llm_instance w; sent := sent';
           response_data := response_data w |}).

(** [get_database().insert_feedback(...)] *)
Definition insert_feedback (env : Env) (rating_ : Z) (review_text : pystr)
    (ai_responses : llm_handler.Responses) : M World Z :=
  fun w =>
    match database.insert_feedback (now env) rating_ review_text
            (Some (llm_handler.user_response ai_responses))
            (Some (llm_handler.admin_summary ai_responses))
            (Some (llm_handler.recommended_actions ai_responses))
            (db w) with
    | inr (db', fid) =>
        (inr fid, {| db := db'; _llm_instance := _llm_instance w;
                     sent := sent w; response_data := response_data w |})
    | inl e => (inl e, w)
    end.

(** [st.session_state.response_data = ...; submitted = True] *)
Definition set_response_data (data : ResponseData) : M World unit :=
  fun w =>
    (inr tt, {| db := db w; _llm_instance := _llm_instance w;
                sent := sent w; response_data := Some data |}).

(** The body of the [try]. *)
Definition try_body (env : Env) (rating_ : Z) (review_text : pystr)
  : M World Outcome :=
  match llm_handler.or_else (OPENROUTER_API_KEY env) None with
  | None =>
      ret (ConfigurationError
             (warning_sign ++
              lit " API key not configured. Please set OPENROUTER_API_KEY environment variable."))
  | Some api_key =>
      llm <- get_llm_handler (Some api_key) env ;;
      ai_responses <- process_feedback env llm rating_ review_text ;;
      fid <- insert_feedback env rating_ review_text ai_responses ;;
      let data :=
        {| feedback_id := fid; rating := rating_; review := review_text;
           response := llm_handler.user_response ai_responses |} in
      _ <- set_response_data data ;;
      ret (Submitted data)
  end.

(** The block under [if submit_button:], for the rating of the slider and
    the text of the text area. *)
Definition process_submission (env : Env) (rating_ : Z) (review_text : pystr)
  : World -> Outcome * World :=
  fun w =>
    if negb (truthy (strip review_text)) then
      (ValidationError
         (cross_mark ++ lit " Please write a review before submitting!"), w)
    else if len (strip review_text) <? 10 then
      (ValidationError
         (cross_mark ++
          lit " Please provide a more detailed review (at least 10 characters)"),
       w)
    else
      match try_body env rating_ review_text w with
      | (inr outcome, w') => (outcome, w')
      | (inl e, w') =>
          (ErrorShown (cross_mark ++ lit " An error occurred: " ++ exn_str e),
           w')
      end.

(** A process that has just started. *)
Definition start : World :=
  {| db := database._create_tables; _llm_instance := None; sent := [];
     response_data := None |}.

(** ** The form

    The rating the block works with is read from a slider, and two lines
    of the form use it before the block does. *)

(** [st.select_slider(..., options=[1, 2, 3, 4, 5], value=5, ...)]: the
    widget returns the option its handle is on. What the user gives is the
    position of the handle among the options, counted from 0; the widget
    has no position outside them. *)
Definition select_slider (options : list Z) (handle : fin (length options))
  : Z :=
  options !!! fin_to_nat handle.

(** [n] fits [Py_ssize_t]. *)
Definition ssize_t (n : Z) : bool := (- 2 ^ 63 <=? n) && (n <? 2 ^ 63).

(** [s * n] for a [str] and an [int]: the empty string when [n <= 0], an
    [OverflowError] when [n] does not fit [Py_ssize_t]. *)
Definition str_mul (s : pystr) (n : Z) : exn + pystr :=
  if ssize_t n then inr (mjoin (replicate (Z.to_nat n) s))
  else inl (OverflowError (lit "cannot fit 'int' into an index-sized integer")).

(** The two characters of the star display, U+2B50 and U+2606. *)
Definition star : pystr := [11088%N].
Definition white_star : pystr := [9734%N].

(** [stars = star * rating + white_star * (5 - rating)] *)
Definition stars (rating_ : Z) : exn + pystr :=
  match str_mul star rating_ with
  | inr filled =>
      match str_mul white_star (5 - rating_) with
      | inr hollow => inr (filled ++ hollow)
      | inl e => inl e
      end
  | inl e => inl e
  end.

Definition rating_descriptions : gmap Z pystr :=
  <[1 := [128542%N] ++ lit " Poor - Very dissatisfied"]>
  (<[2 := [128533%N] ++ lit " Fair - Somewhat dissatisfied"]>
  (<[3 := [128528%N] ++ lit " Good - Neither satisfied nor dissatisfied"]>
  (<[4 := [128522%N] ++ lit " Very Good - Satisfied"]>
  (<[5 := [129321%N] ++ lit " Excellent - Very satisfied"]> ∅)))).

(** [d[key]] for a dict: a [KeyError] when the key is missing. *)
Definition getitem (d : gmap Z pystr) (key : Z) : exn + pystr :=
  match d !! key with
  | Some v => inr v
  | None => inl (KeyError (str_of_int key))
  end.

(** What a run shows of the form: the stars, the description of the
    rating, and the outcome of the block when the button was pressed. *)
Record Shown : Type := mkShown {
  star_rating : pystr;
  description : pystr;
  outcome : option Outcome
}.

(** One run of the script in a session whose [submitted] is false: the
    slider is read, the stars and the description of its rating are shown,
    and the block runs with that rating when the button was pressed. An
    exception of the two lines of the form is not caught: the run ends
    with it, before the block. *)
Definition form_run (env : Env) (handle : fin (length rating_options))
    (review_text : pystr) (submit_button : bool)
  : World -> (exn + Shown) * World :=
  fun w =>
    let rating_ := select_slider rating_options handle in
    match stars rating_ with
    | inl e => (inl e, w)
    | inr stars_ =>
        match getitem rating_descriptions rating_ with
        | inl e => (inl e, w)
        | inr info =>
            if submit_button then
              let '(result, w') :=
                process_submission env rating_ review_text w in
              (inr {| star_rating := stars_; description := info;
                      outcome := Some result |}, w')
            else
              (inr {| star_rating := stars_; description := info;
                      outcome := None |}, w)
        end
    end.

End user_dashboard.

(** * pages/2_admin_dashboard.py: metrics and cards *)

Module admin_dashboard.

(** What the page loads: the data frame of [get_all_feedback] and the
    statistics; with an empty data frame it shows a notice and stops. *)
Definition load_data (now : Z) (db : database.FeedbackDatabase)
  : option (list database.Row * database.Statistics) :=
  let df := database.get_all_feedback db in
  let stats := database.get_statistics now db in
  if (Z.of_nat (length df) =? 0) then None else Some (df, stats).

(** [len(df[df['rating'] >= 4])] *)
Definition positive_count (df : list database.Row) : Z :=
  Z.of_nat (length (filter (fun r => database.rating r >= 4) df)).

(** [len(df[df['rating'] <= 2])] *)
Definition negative_count (df : list database.Row) : Z :=
  Z.of_nat (length (filter (fun r => database.rating r <= 2) df)).

(** The class of a feedback card. *)
Inductive CardClass : Type :=
  | positive_feedback
  | negative_feedback
  | neutral_feedback.

Definition card_class (rating : Z) : CardClass :=
  if rating >=? 4 then positive_feedback
  else if rating <=? 2 then negative_feedback
  else neutral_feedback.

(** The rating breakdown of the sidebar: for each rating from 5 down to 1,
    [len(df[df['rating'] == rating])]. *)
Definition rating_breakdown (df : list database.Row) : list (Z * Z) :=
  map (fun rating =>
         (rating,
          Z.of_nat (length (filter (fun r => database.rating r = rating) df))))
      [5; 4; 3; 2; 1].

End admin_dashboard.

(** * States the system can reach *)

Import database.

(** The databases reached by calls of the store, one at a time, under a
    clock that does not go back: [reachable t d] when [d] is reached at
    time [t]. *)
Inductive reachable : Z -> FeedbackDatabase -> Prop :=
  | reach_create t : reachable t _create_tables
  | reach_tick t t' d :
      reachable t d -> t <= t' -> reachable t' d
  | reach_insert t d d' r text u a ra fid :
      reachable t d ->
      insert_feedback t r text u a ra d = inr (d', fid) ->
      reachable t d'
  | reach_delete t d fid :
      reachable t d -> reachable t (delete_feedback fid d).1
  | reach_clear t d :
      reachable t d -> reachable t (clear_all_data d).

(** The worlds reached through the application: submissions on the user
    dashboard, and the deletions the store offers. *)
Inductive app_reachable : user_dashboard.World -> Prop :=
  | app_start : app_reachable user_dashboard.start
  | app_submit env r text w :
      app_reachable w ->
      app_reachable (user_dashboard.process_submission env r text w).2
  | app_delete fid w :
      app_reachable w ->
      app_reachable
        {| user_dashboard.db := (delete_feedback fid (user_dashboard.db w)).1;
           user_dashboard._llm_instance := user_dashboard._llm_instance w;
           user_dashboard.sent := user_dashboard.sent w;
           user_dashboard.response_data := user_dashboard.response_data w |}
  | app_clear w :
      app_reachable w ->
      app_reachable
        {| user_dashboard.db := clear_all_data (user_dashboard.db w);
           user_dashboard._llm_instance := user_dashboard._llm_instance w;
           user_dashboard.sent := user_dashboard.sent w;
           user_dashboard.response_data := user_dashboard.response_data w |}.


(** A row with its three derived columns set. *)
Definition fully_populated (r : Row) : Prop :=
  is_Some (user_response r) /\ is_Some (admin_summary r) /\
  is_Some (recommended_actions r).

(** * Vocabulary of the properties and examples *)

Import llm_handler.

(** The total count the groups hold for rating [k]. *)
Definition weight (k : Z) (groups : list (Z * Z)) : Z :=
  sum (map snd (filter (fun g => g.1 = k) groups)).

(** The number of rows with rating [k]. *)
Definition count_rating (k : Z) (rows : list Row) : Z :=
  Z.of_nat (length (filter (fun r => rating r = k) rows)).

(** The keys of the groups go up strictly. *)
Definition ascending (groups : list (Z * Z)) : Prop :=
  StronglySorted Z.lt groups.*1.

(** The order of the table: [a] was inserted before [b]. *)
Definition table_order (a b : Row) : Prop :=
  id a < id b /\ timestamp a <= timestamp b.


(** What the table of a reachable database satisfies: ids go up and
    timestamps do not go down along the table, no id is above
    [sqlite_sequence] and no timestamp after the clock. *)
Definition store_inv (t : Z) (d : FeedbackDatabase) : Prop :=
  StronglySorted table_order (feedback d) /\
  Forall (fun r => id r <= sqlite_sequence d /\ timestamp r <= t)
         (feedback d).

(** Sample databases: rows inserted at seconds 100, 100 and 200. *)
Definition sample_row (i t r : Z) : Row :=
  mkRow i t r (lit "any valid text") (Some (lit "thanks"))
        (Some (lit "summary")) (Some (lit "actions")).

Definition sample_one : FeedbackDatabase :=
  {| feedback := [sample_row 1 100 5]; sqlite_sequence := 1 |}.

Definition sample_two : FeedbackDatabase :=
  {| feedback := [sample_row 1 100 5; sample_row 2 100 4];
     sqlite_sequence := 2 |}.

Definition sample_three : FeedbackDatabase :=
  {| feedback := [sample_row 1 100 5; sample_row 2 100 4; sample_row 3 200 1];
     sqlite_sequence := 3 |}.

(** The arithmetic mean of the ratings, as an exact rational. *)
Definition mean (rows : list Row) : Q :=
  (inject_Z (sum (map rating rows)) /
   inject_Z (Z.of_nat (length rows)))%Q.

(** The database after one [insert_feedback] for each rating of a list, all
    at time [now]. *)
Definition insert_ratings (now : Z) (ratings : list Z)
    (d : FeedbackDatabase) : FeedbackDatabase :=
  foldl (fun d r =>
           match insert_feedback now r (lit "any valid text")
                   (Some (lit "thanks")) (Some (lit "summary"))
                   (Some (lit "actions")) d with
           | inr (d', _) => d'
           | inl _ => d
           end) d ratings.

(** Forty records, twenty-seven rated 3 and thirteen rated 2: the mean is
    2.675. *)
Definition sample_tie : FeedbackDatabase :=
  insert_ratings 100 (repeat 3 27 ++ repeat 2 13) _create_tables.

(** One record with a rating of [2 ^ 53 + 1]. *)
Definition sample_huge : FeedbackDatabase :=
  insert_ratings 100 [9007199254740993] _create_tables.

(** The three requests of one [process_feedback]. *)
Definition user_request (self : LLMHandler) (r : Z) (text : pystr) : Request :=
  post_data self (user_response_prompt r text) (7 # 10)%Q 200.

Definition summary_request (self : LLMHandler) (r : Z) (text : pystr)
  : Request :=
  post_data self (admin_summary_prompt r text) (3 # 10)%Q 150.

Definition actions_request (self : LLMHandler) (r : Z) (text : pystr)
  : Request :=
  post_data self (recommended_actions_prompt r text) (4 # 10)%Q 250.

(** A sub-call fails when the exchange raises. *)
Definition failed (resp : Response) : Prop :=
  match resp with Raises _ => True | Content _ => False end.

(** The artifact a sub-call gives for an answer of the endpoint. *)
Definition artifact (resp : Response) (fallback : pystr) : pystr :=
  match resp with Content text => strip text | Raises _ => fallback end.

(** The rating bands of the glossary. *)
Inductive Band : Type := Low | Medium | High.

Definition band (r : Z) : Band :=
  if r <=? 2 then Low else if r =? 3 then Medium else High.

(** A handler and an endpoint for the examples: the first request times
    out, every later one is answered with blanks only. *)
Definition sample_llm : LLMHandler :=
  {| api_key := lit "sk-test";
     model := lit "mistralai/mistral-7b-instruct:free";
     api_url := lit "https://openrouter.ai/api/v1/chat/completions" |}.

Definition blank_remote : Remote :=
  fun n _ =>
    match n with
    | O => Raises (RequestException (lit "timed out"))
    | _ => Content (lit "   ")
    end.

(** An endpoint that cannot be reached. *)
Definition unreachable_remote : Remote :=
  fun _ _ => Raises (RequestException (lit "connection refused")).

(** The handler a submission works with: the one kept by the module, or
    one built from the key. *)
Definition handler_for (k : pystr) (w : user_dashboard.World) : LLMHandler :=
  match user_dashboard._llm_instance w with
  | Some h => h
  | None =>
      {| api_key := k;
         model := lit "mistralai/mistral-7b-instruct:free";
         api_url := lit "https://openrouter.ai/api/v1/chat/completions" |}
  end.

(** The artifacts a submission gets for the answers of the endpoint. *)
Definition responses_for (env : user_dashboard.Env) (h : LLMHandler)
    (r : Z) (text : pystr) (w : user_dashboard.World) : Responses :=
  let n := length (user_dashboard.sent w) in
  {| user_response :=
       artifact (user_dashboard.remote env n (user_request h r text))
                (user_response_fallback r);
     admin_summary :=
       artifact (user_dashboard.remote env (S n) (summary_request h r text))
                (admin_summary_fallback r);
     recommended_actions :=
       artifact (user_dashboard.remote env (S (S n))
                   (actions_request h r text))
                (recommended_actions_fallback r) |}.

(** The row a submission inserts. *)
Definition submitted_row (env : user_dashboard.Env) (res : Responses)
    (r : Z) (text : pystr) (w : user_dashboard.World) : Row :=
  mkRow (sqlite_sequence (user_dashboard.db w) + 1) (user_dashboard.now env)
        r text (Some (user_response res)) (Some (admin_summary res))
        (Some (recommended_actions res)).

(** The record [insert_feedback] stores when it is called with its
    defaults. *)
Definition null_row : Row :=
  mkRow 1 100 5 (lit "any valid text") None None None.

Definition sample_nulls : FeedbackDatabase :=
  {| feedback := [null_row]; sqlite_sequence := 1 |}.

(** An environment for the examples: the key is set and the endpoint
    cannot be reached. *)
Definition sample_env : user_dashboard.Env :=
  {| user_dashboard.now := 100;
     user_dashboard.OPENROUTER_API_KEY := Some (lit "sk-test");
     user_dashboard.remote := unreachable_remote |}.

(** * The model on small inputs *)

Example str_of_int_examples :
  str_of_int 5 = lit "5" /\ str_of_int 0 = lit "0" /\
  str_of_int (-12) = lit "-12".
Proof. repeat split. Qed.

Example strip_example :
  strip (lit "  good  food ") = lit "good  food" /\ strip (lit "   ") = [].
Proof. split; reflexivity. Qed.

(** The scenario of the specification: ratings 5, 5, 4, 1, 3. *)
Example group_by_rating_example :
  group_by_rating
    [sample_row 1 100 5; sample_row 2 101 5; sample_row 3 102 4;
     sample_row 4 103 1; sample_row 5 104 3] =
  [(1, 1); (3, 1); (4, 1); (5, 2)].
Proof. reflexivity. Qed.

Example average_rating_example :
  average_rating
    (get_statistics 200 (insert_ratings 100 [5; 5; 4; 1; 3] _create_tables)) =
    Float (binary64.nearest (36 # 10)) /\
  binary64.nearest (36 # 10) = (8106479329266893 # 2251799813685248)%Q /\
  average_rating (get_statistics 200 _create_tables) = Int 0.
Proof.
  split; [unfold get_statistics; cbn [average_rating]; vm_compute; reflexivity|].
  split; reflexivity.
Qed.

Example get_all_feedback_example :
  map id (get_all_feedback sample_three) = [3; 1; 2] /\
  map id (get_recent_feedback 2 sample_three) = [3; 1] /\
  map id (get_feedback_by_rating 4 sample_three) = [2] /\
  id <$> get_feedback_by_id 3 sample_three = Some 3.
Proof. repeat split. Qed.

Example user_response_fallback_example :
  user_response_fallback 4 =
  lit "Thank you for your 4-star review! We appreciate your feedback and will use it to improve our service.".
Proof. reflexivity. Qed.

(** * Properties of binary64 rounding *)

Section binary64_facts.
Local Open Scope Q_scope.

Lemma round_half_even_bounds q :
  q - (1 # 2) <= inject_Z (binary64.round_half_even q) <= q + (1 # 2).
Proof.
  unfold binary64.round_half_even.
  pose proof (Qfloor_le q) as Hlo. pose proof (Qlt_floor q) as Hhi.
  rewrite inject_Z_plus in Hhi. change (inject_Z 1) with 1 in Hhi.
  destruct (q - inject_Z (Qfloor q) ?= 1 # 2) eqn:E.
  - apply Qeq_alt in E.
    destruct (Z.even (Qfloor q)); rewrite ?inject_Z_plus;
      change (inject_Z 1) with 1; lra.
  - apply Qlt_alt in E. lra.
  - apply Qgt_alt in E. rewrite inject_Z_plus.
    change (inject_Z 1) with 1. lra.
Qed.

Lemma round_half_even_comp q q' :
  q == q' -> binary64.round_half_even q = binary64.round_half_even q'.
Proof.
  intros H. unfold binary64.round_half_even.
  rewrite (Qfloor_comp _ _ H).
  assert (Hc : (q - inject_Z (Qfloor q') ?= 1 # 2) =
               (q' - inject_Z (Qfloor q') ?= 1 # 2)).
  { apply Qcompare_comp; [|reflexivity]. rewrite H. reflexivity. }
  rewrite Hc. reflexivity.
Qed.

Lemma round_half_even_inject z : binary64.round_half_even (inject_Z z) = z.
Proof.
  unfold binary64.round_half_even. rewrite Qfloor_Z.
  assert (H : (inject_Z z - inject_Z z ?= 1 # 2) = Lt).
  { apply (proj1 (Qlt_alt _ _)). lra. }
  rewrite H. reflexivity.
Qed.

Lemma pow2_pos e : 0 < 2 ^ e.
Proof. apply Qpower_0_lt. lra. Qed.

Lemma pow2_plus a b : 2 ^ (a + b) == 2 ^ a * 2 ^ b.
Proof. apply Qpower_plus. lra. Qed.

Lemma pow2_opp_r e : 2 ^ e * 2 ^ (- e) == 1.
Proof.
  rewrite <- pow2_plus. rewrite Z.add_opp_diag_r. reflexivity.
Qed.

Lemma pow2_log2_le a : (0 < a)%Z -> 2 ^ Z.log2 a <= inject_Z a.
Proof.
  intros Ha. destruct (Z.log2_spec a Ha) as [Hlo _].
  rewrite <- (Zpower_Qpower 2 (Z.log2 a)) by apply Z.log2_nonneg.
  rewrite <- Zle_Qle. exact Hlo.
Qed.

Lemma pow2_log2_gt a : (0 < a)%Z -> inject_Z a < 2 * 2 ^ Z.log2 a.
Proof.
  intros Ha. destruct (Z.log2_spec a Ha) as [_ Hhi].
  rewrite <- (Zpower_Qpower 2 (Z.log2 a)) by apply Z.log2_nonneg.
  change 2 with (inject_Z 2) at 1. rewrite <- inject_Z_mult, <- Zlt_Qlt.
  rewrite Z.pow_succ_r in Hhi by apply Z.log2_nonneg. exact Hhi.
Qed.

Lemma ulp_exponent_lower q :
  0 < q -> 2 ^ 52 <= q * 2 ^ (- binary64.ulp_exponent q).
Proof.
  intros Hq. unfold binary64.ulp_exponent. destruct q as [a b]. cbn [Qnum Qden].
  assert (Ha : (0 < a)%Z).
  { unfold Qlt in Hq. simpl in Hq. lia. }
  rewrite Z.abs_eq by lia.
  set (e0 := (Z.log2 a - Z.log2 (Zpos b) - 52)%Z).
  destruct (Qle_bool (2 ^ 52) (Qabs (a # b) * 2 ^ (- e0))) eqn:E.
  - apply Qle_bool_iff in E. rewrite Qabs_pos in E by lra. exact E.
  - clear E.
    pose proof (pow2_log2_le a Ha) as HA.
    pose proof (pow2_log2_gt (Zpos b) eq_refl) as HB.
    pose proof (pow2_pos (Z.log2 a)) as HPA.
    pose proof (pow2_pos (Z.log2 (Zpos b))) as HPB.
    assert (HB0 : 0 < inject_Z (Zpos b)) by reflexivity.
    replace (- (e0 - 1))%Z
      with (Z.log2 (Zpos b) + (- Z.log2 a + 53))%Z by (unfold e0; lia).
    rewrite !pow2_plus, Qpower_opp, (Qmake_Qdiv a b).
    set (A := inject_Z a) in *. set (B := inject_Z (Zpos b)) in *.
    set (PA := 2 ^ Z.log2 a) in *. set (PB := 2 ^ Z.log2 (Zpos b)) in *.
    change (2 ^ 52) with (4503599627370496 # 1).
    change (2 ^ 53) with (9007199254740992 # 1).
    assert (Hx : 1 <= A / PA) by (apply Qle_shift_div_l; lra).
    assert (Hy : (1 # 2) <= PB / B) by (apply Qle_shift_div_l; lra).
    assert (Heq : A / B * (PB * (/ PA * (9007199254740992 # 1))) ==
                  (A / PA) * (PB / B) * (9007199254740992 # 1)).
    { field. split; lra. }
    rewrite Heq. nra.
Qed.

Lemma nearest_error q :
  0 < q ->
  q - q * (1 # 9007199254740992) <= binary64.nearest q <=
  q + q * (1 # 9007199254740992).
Proof.
  intros Hq. unfold binary64.nearest.
  destruct (Qeq_bool q 0) eqn:E.
  { apply Qeq_bool_iff in E. lra. }
  clear E. rewrite Qred_correct.
  pose proof (ulp_exponent_lower q Hq) as Hlow.
  set (e := binary64.ulp_exponent q) in *.
  pose proof (round_half_even_bounds (q * 2 ^ (- e))) as [Hm1 Hm2].
  set (m := inject_Z (binary64.round_half_even (q * 2 ^ (- e)))) in *.
  pose proof (pow2_pos e) as HP. pose proof (pow2_pos (- e)) as HN.
  pose proof (pow2_opp_r e) as HPN.
  set (P := 2 ^ e) in *. set (N := 2 ^ (- e)) in *.
  change (2 ^ 52) with (4503599627370496 # 1) in Hlow.
  assert (H1 : m * P <= (q * N + (1 # 2)) * P)
    by (apply Qmult_le_compat_r; lra).
  assert (H2 : (q * N - (1 # 2)) * P <= m * P)
    by (apply Qmult_le_compat_r; lra).
  assert (H3 : (4503599627370496 # 1) * P <= q * N * P)
    by (apply Qmult_le_compat_r; lra).
  assert (H4 : q * N * P == q).
  { transitivity (q * (P * N)); [ring|]. rewrite HPN. ring. }
  split; nra.
Qed.

Lemma nearest_inject z :
  (0 < z < 2 ^ 53)%Z -> binary64.nearest (inject_Z z) = inject_Z z.
Proof.
  intros [Hz0 Hz]. unfold binary64.nearest.
  assert (Hq : 0 < inject_Z z) by (change 0 with (inject_Z 0); rewrite <- Zlt_Qlt; lia).
  destruct (Qeq_bool (inject_Z z) 0) eqn:E.
  { apply Qeq_bool_iff in E. lra. }
  clear E.
  assert (He : binary64.ulp_exponent (inject_Z z) = (Z.log2 z - 52)%Z).
  { unfold binary64.ulp_exponent. cbn [Qnum Qden inject_Z].
    rewrite Z.abs_eq by lia. change (Z.log2 1) with 0%Z.
    replace (Z.log2 z - 0 - 52)%Z with (Z.log2 z - 52)%Z by lia.
    assert (Ht : Qle_bool (2 ^ 52)
                   (Qabs (inject_Z z) * 2 ^ (- (Z.log2 z - 52))) = true);
      [|rewrite Ht; reflexivity].
    apply Qle_bool_iff. rewrite Qabs_pos by (apply Qlt_le_weak; exact Hq).
    replace (- (Z.log2 z - 52))%Z with (- Z.log2 z + 52)%Z by lia.
    rewrite pow2_plus, Qpower_opp.
    pose proof (pow2_log2_le z Hz0) as HA.
    pose proof (pow2_pos (Z.log2 z)) as HPA.
    set (A := inject_Z z) in *. set (PA := 2 ^ Z.log2 z) in *.
    change (2 ^ 52) with (4503599627370496 # 1).
    assert (Hx : 1 <= A * / PA) by (apply Qle_shift_div_l; lra).
    nra. }
  rewrite He.
  assert (Hl : (Z.log2 z < 53)%Z).
  { apply Z.log2_lt_pow2; lia. }
  assert (Hscaled : inject_Z z * 2 ^ (- (Z.log2 z - 52)) ==
                    inject_Z (z * 2 ^ (52 - Z.log2 z))).
  { rewrite inject_Z_mult, Zpower_Qpower by lia.
    replace (- (Z.log2 z - 52))%Z with (52 - Z.log2 z)%Z by lia.
    reflexivity. }
  rewrite (round_half_even_comp _ _ Hscaled), round_half_even_inject.
  rewrite <- (Qred_complete (inject_Z z)).
  - apply Qred_identity. simpl. apply Z.gcd_1_r.
  - rewrite inject_Z_mult, Zpower_Qpower by lia.
    change (inject_Z 2) with 2.
    transitivity (inject_Z z * (2 ^ (52 - Z.log2 z) * 2 ^ (Z.log2 z - 52)));
      [|ring].
    rewrite <- pow2_plus.
    replace (52 - Z.log2 z + (Z.log2 z - 52))%Z with 0%Z by lia.
    change (2 ^ 0) with 1. ring.
Qed.

(** The average of integers of sum [S] over [n] rows, rounded to two
    places: a multiple [k / 100] of one hundredth that is binary64.nearest to the
    exact mean, as long as [200 * S] stays below [2 ^ 53]. *)
Lemma round2_of_avg S n :
  (0 < S)%Z -> (0 < n < 2 ^ 53)%Z -> (200 * S < 2 ^ 53)%Z ->
  let x := binary64.div (binary64.of_int S) (binary64.of_int n) in
  let k := binary64.round_half_even (x * 10 ^ 2) in
  0 < x /\
  Qabs (inject_Z k / 100 - inject_Z S / inject_Z n) <= 1 # 200.
Proof.
  intros HS [Hn0 Hn] HS200. cbv zeta. unfold binary64.div, binary64.of_int.
  rewrite (nearest_inject S) by lia. rewrite (nearest_inject n) by lia.
  assert (HSq : 0 < inject_Z S)
    by (change 0 with (inject_Z 0); rewrite <- Zlt_Qlt; lia).
  assert (HNq : 0 < inject_Z n)
    by (change 0 with (inject_Z 0); rewrite <- Zlt_Qlt; lia).
  assert (HS200q : 200 * inject_Z S < 9007199254740992 # 1).
  { change 200 with (inject_Z 200).
    change (9007199254740992 # 1) with (inject_Z (2 ^ 53)).
    rewrite <- inject_Z_mult, <- Zlt_Qlt. exact HS200. }
  set (Sq := inject_Z S) in *. set (Nq := inject_Z n) in *.
  assert (HT0 : 0 < Sq / Nq) by (apply Qlt_shift_div_l; lra).
  assert (HT : Sq / Nq * Nq == Sq) by (field; lra).
  pose proof (nearest_error (Sq / Nq) HT0) as [Hx1 Hx2].
  set (T := Sq / Nq) in *. set (x := binary64.nearest T) in *.
  pose proof (round_half_even_bounds (x * 10 ^ 2)) as [Hk1 Hk2].
  change (10 ^ 2) with (100 # 1) in *.
  set (k := binary64.round_half_even (x * (100 # 1))) in *.
  split; [nra|].
  assert (Hup : inject_Z k * (2 * Nq) <=
                ((T + T * (1 # 9007199254740992)) * (100 # 1) + (1 # 2))
                * (2 * Nq))
    by (apply Qmult_le_compat_r; lra).
  assert (Hdn : ((T - T * (1 # 9007199254740992)) * (100 # 1) - (1 # 2))
                * (2 * Nq) <= inject_Z k * (2 * Nq))
    by (apply Qmult_le_compat_r; lra).
  assert (HD1 : (2 * n * k < 200 * S + (n + 1))%Z).
  { rewrite Zlt_Qlt. rewrite !inject_Z_plus, !inject_Z_mult.
    fold Sq Nq. change (inject_Z 2) with 2. change (inject_Z 200) with 200.
    change (inject_Z 1) with 1. nra. }
  assert (HD2 : (200 * S < 2 * n * k + (n + 1))%Z).
  { rewrite Zlt_Qlt. rewrite !inject_Z_plus, !inject_Z_mult.
    fold Sq Nq. change (inject_Z 2) with 2. change (inject_Z 200) with 200.
    change (inject_Z 1) with 1. nra. }
  assert (HD3 : (2 * n * k <= 200 * S + n)%Z) by lia.
  assert (HD4 : (200 * S <= 2 * n * k + n)%Z) by lia.
  rewrite Zle_Qle in HD3, HD4.
  rewrite !inject_Z_plus, !inject_Z_mult in HD3, HD4.
  fold Sq Nq in HD3, HD4.
  change (inject_Z 2) with 2 in *. change (inject_Z 200) with 200 in *.
  apply Qabs_Qle_condition.
  assert (Hdiv : inject_Z k / 100 == inject_Z k * (1 # 100)) by (field; lra).
  rewrite Hdiv. split; nra.
Qed.

End binary64_facts.

(** * Properties of the store *)

(** ** Grouping by rating *)

Lemma sum_cons x l : sum (x :: l) = x + sum l.
Proof. reflexivity. Qed.

Ltac reflexivity_sum :=
  rewrite ?fmap_cons, ?sum_cons in *; cbn [fst snd] in *; lia.

Lemma sum_app l1 l2 : sum (l1 ++ l2) = sum l1 + sum l2.
Proof. induction l1 as [|x l1 IH]; simpl; lia. Qed.

Lemma sum_Permutation l1 l2 : l1 ≡ₚ l2 -> sum l1 = sum l2.
Proof. induction 1; simpl; lia. Qed.

Lemma weight_cons k g groups :
  weight k (g :: groups) = (if decide (g.1 = k) then g.2 else 0) + weight k groups.
Proof.
  unfold weight. rewrite filter_cons.
  destruct (decide (g.1 = k)); simpl; lia.
Qed.

Lemma weight_group_count k r groups :
  weight k (group_count r groups) =
  weight k groups + (if decide (r = k) then 1 else 0).
Proof.
  induction groups as [|[k0 c0] groups IH]; simpl.
  - rewrite weight_cons. simpl. unfold weight. simpl.
    destruct (decide (r = k)); lia.
  - destruct (Z.ltb_spec r k0).
    + rewrite !weight_cons. simpl. repeat case_decide; lia.
    + destruct (Z.eqb_spec r k0).
      * rewrite !weight_cons. simpl. subst. repeat case_decide; lia.
      * rewrite !weight_cons, IH. simpl. repeat case_decide; lia.
Qed.

Lemma sum_group_count r groups :
  sum (group_count r groups).*2 = sum groups.*2 + 1.
Proof.
  induction groups as [|[k0 c0] groups IH]; [reflexivity|].
  cbn [group_count].
  destruct (Z.ltb_spec r k0); [reflexivity_sum|].
  destruct (Z.eqb_spec r k0); reflexivity_sum.
Qed.

Lemma keys_group_count r groups k :
  k ∈ (group_count r groups).*1 -> k = r \/ k ∈ groups.*1.
Proof.
  induction groups as [|[k0 c0] groups IH]; simpl.
  - rewrite list_elem_of_singleton. auto.
  - destruct (Z.ltb_spec r k0); simpl.
    + rewrite !elem_of_cons. simpl. tauto.
    + destruct (Z.eqb_spec r k0); simpl; rewrite !elem_of_cons; simpl.
      * tauto.
      * intros [->|H']; [tauto|]. destruct (IH H'); tauto.
Qed.

Lemma ascending_group_count r groups :
  ascending groups -> ascending (group_count r groups).
Proof.
  unfold ascending.
  induction groups as [|[k0 c0] groups IH]; simpl; intros Hs.
  - repeat constructor.
  - apply StronglySorted_inv in Hs as [Hs Hall].
    destruct (Z.ltb_spec r k0); simpl.
    + constructor; [constructor; assumption|].
      constructor; [assumption|].
      eapply Forall_impl; [exact Hall|]. simpl. intros. lia.
    + destruct (Z.eqb_spec r k0); simpl.
      * constructor; assumption.
      * constructor; [auto|].
        apply Forall_forall. intros k Hk.
        apply keys_group_count in Hk as [->|Hk]; [lia|].
        rewrite Forall_forall in Hall. auto.
Qed.

Lemma positive_group_count r groups :
  Forall (fun g => 0 < g.2) groups ->
  Forall (fun g => 0 < g.2) (group_count r groups).
Proof.
  induction groups as [|[k0 c0] groups IH]; simpl; intros Hp.
  - repeat constructor.
  - apply Forall_cons in Hp as [Hc Hp]. simpl in Hc.
    destruct (Z.ltb_spec r k0); [repeat constructor; auto|].
    destruct (Z.eqb_spec r k0); constructor; simpl; auto; lia.
Qed.

(** What [GROUP BY] keeps true, for any groups it starts from. *)
Lemma group_fold_spec rows groups :
  ascending groups -> Forall (fun g => 0 < g.2) groups ->
  let out := foldl (fun gs r => group_count (rating r) gs) groups rows in
  ascending out /\ Forall (fun g => 0 < g.2) out /\
  sum out.*2 = sum groups.*2 + Z.of_nat (length rows) /\
  forall k, weight k out = weight k groups + count_rating k rows.
Proof.
  revert groups.
  induction rows as [|r rows IH]; intros groups Ha Hp; simpl.
  - unfold count_rating. simpl. repeat split; auto; intros; lia.
  - destruct (IH (group_count (rating r) groups)) as (H1 & H2 & H3 & H4).
    { by apply ascending_group_count. }
    { by apply positive_group_count. }
    repeat split; auto.
    + rewrite H3, sum_group_count. lia.
    + intros k. rewrite H4, weight_group_count.
      unfold count_rating. rewrite filter_cons.
      destruct (decide (rating r = k)); simpl; lia.
Qed.

Lemma group_by_rating_spec rows :
  let out := group_by_rating rows in
  ascending out /\ Forall (fun g => 0 < g.2) out /\
  sum out.*2 = Z.of_nat (length rows) /\
  forall k, weight k out = count_rating k rows.
Proof.
  destruct (group_fold_spec rows []) as (H1 & H2 & H3 & H4).
  { constructor. }
  { constructor. }
  repeat split; auto.
Qed.

Lemma ascending_NoDup groups : ascending groups -> NoDup groups.*1.
Proof.
  unfold ascending. induction 1 as [|k ks Hs IH Hall]; constructor; auto.
  intros Hin. rewrite Forall_forall in Hall. specialize (Hall _ Hin). lia.
Qed.

Lemma weight_not_key k groups : k ∉ groups.*1 -> weight k groups = 0.
Proof.
  induction groups as [|[k0 c0] groups IH]; [reflexivity|].
  simpl. rewrite not_elem_of_cons. intros [Hne Hk].
  rewrite weight_cons. simpl. case_decide; [congruence|]. rewrite IH; auto.
Qed.

Lemma weight_key k c groups :
  NoDup groups.*1 -> (k, c) ∈ groups -> weight k groups = c.
Proof.
  induction groups as [|[k0 c0] groups IH]; simpl; intros Hnd Hin.
  - by apply elem_of_nil in Hin.
  - apply NoDup_cons in Hnd as [Hk0 Hnd]. rewrite weight_cons. simpl.
    apply elem_of_cons in Hin as [Heq|Hin].
    + inversion Heq; subst. case_decide; [|congruence].
      rewrite weight_not_key; [lia|done].
    + case_decide.
      * subst. exfalso. apply Hk0.
        apply list_elem_of_fmap. exists (k, c). split; auto.
      * rewrite IH; auto.
Qed.

Lemma dict_of_rows_list_to_map (rows : list (Z * Z)) :
  dict_of_rows rows = list_to_map (reverse rows).
Proof.
  unfold dict_of_rows.
  induction rows as [|[k c] rows IH] using rev_ind; [reflexivity|].
  rewrite foldl_app, reverse_snoc. simpl. by rewrite IH.
Qed.

Lemma dict_of_rows_lookup (groups : list (Z * Z)) k c :
  NoDup groups.*1 ->
  dict_of_rows groups !! k = Some c <-> (k, c) ∈ groups.
Proof.
  intros Hnd. rewrite dict_of_rows_list_to_map.
  rewrite <- elem_of_list_to_map.
  - by rewrite elem_of_reverse.
  - by rewrite fmap_reverse, reverse_Permutation.
Qed.

Lemma dict_of_rows_values (groups : list (Z * Z)) :
  NoDup groups.*1 -> sum (values (dict_of_rows groups)) = sum groups.*2.
Proof.
  intros Hnd. unfold values. rewrite dict_of_rows_list_to_map.
  apply sum_Permutation. rewrite map_to_list_to_map.
  - by rewrite fmap_reverse, reverse_Permutation.
  - by rewrite fmap_reverse, reverse_Permutation.
Qed.

Lemma count_rating_pos k rows :
  0 < count_rating k rows <-> exists r, r ∈ rows /\ rating r = k.
Proof.
  unfold count_rating. split.
  - intros Hpos.
    destruct (filter (fun r => rating r = k) rows) as [|r l] eqn:E;
      [simpl in Hpos; lia|].
    assert (Hin : r ∈ filter (fun r => rating r = k) rows)
      by (rewrite E; left).
    apply list_elem_of_filter in Hin. exists r. tauto.
  - intros (r & Hin & Hr).
    assert (Hin' : r ∈ filter (fun r => rating r = k) rows)
      by (apply list_elem_of_filter; auto).
    destruct (filter (fun r => rating r = k) rows);
      [by apply elem_of_nil in Hin'|simpl; lia].
Qed.

(** ** Ordering by timestamp *)

Lemma order_insert_Permutation r sorted : order_insert r sorted ≡ₚ r :: sorted.
Proof.
  induction sorted as [|x rest IH]; simpl; [done|].
  destruct (timestamp r <? timestamp x); [|done].
  rewrite IH. apply Permutation_swap.
Qed.

Lemma order_by_Permutation rows : order_by_timestamp_desc rows ≡ₚ rows.
Proof.
  induction rows as [|r rows IH]; simpl; [done|].
  by rewrite order_insert_Permutation, IH.
Qed.

Lemma order_by_length rows :
  length (order_by_timestamp_desc rows) = length rows.
Proof. by rewrite order_by_Permutation. Qed.




(** ** What every reachable database satisfies *)

Lemma StronglySorted_filter {A} (R : relation A) (P : A -> Prop)
    `{forall x, Decision (P x)} l :
  StronglySorted R l -> StronglySorted R (filter P l).
Proof.
  induction 1 as [|a l Hs IH Hall]; [constructor|].
  rewrite filter_cons. destruct (decide (P a)); [|done].
  constructor; [done|].
  apply Forall_forall. intros y Hy. apply list_elem_of_filter in Hy as [_ Hy].
  rewrite Forall_forall in Hall. auto.
Qed.

Lemma Forall_filter_keep {A} (Q : A -> Prop) (P : A -> Prop)
    `{forall x, Decision (P x)} l :
  Forall Q l -> Forall Q (filter P l).
Proof.
  rewrite !Forall_forall. intros HQ y Hy.
  apply list_elem_of_filter in Hy as [_ Hy]. auto.
Qed.

Lemma reachable_inv t d : reachable t d -> store_inv t d.
Proof.
  induction 1 as [t|t t' d Hr IH Hle|t d d' r text u a ra fid Hr IH Hins
                 |t d fid Hr IH|t d Hr IH]; unfold store_inv in *.
  - simpl. split; constructor.
  - destruct IH as [Hs Hall]. split; [done|].
    eapply Forall_impl; [exact Hall|]. simpl. intros. lia.
  - destruct IH as [Hs Hall]. unfold insert_feedback in Hins.
    destruct (sqlite_int r); [|discriminate].
    inversion Hins; subst; clear Hins. simpl. split.
    + apply StronglySorted_app. split; [|split; [done|repeat constructor]].
      intros x1 x2 Hx1 Hx2. apply list_elem_of_singleton in Hx2 as ->.
      rewrite Forall_forall in Hall. destruct (Hall x1 Hx1).
      unfold table_order. simpl. lia.
    + apply Forall_app. split.
      * eapply Forall_impl; [exact Hall|]. simpl. intros. lia.
      * repeat constructor; simpl; lia.
  - destruct IH as [Hs Hall]. simpl. split.
    + by apply StronglySorted_filter.
    + by apply Forall_filter_keep.
  - simpl. split; constructor.
Qed.




Lemma filter_none {A} (P : A -> Prop) `{forall x, Decision (P x)} l :
  Forall (fun x => ~ P x) l -> filter P l = [].
Proof.
  induction 1 as [|x l Hx Hl IH]; [done|].
  rewrite filter_cons. by destruct (decide (P x)).
Qed.



Ltac sample_insert t d d' r fid :=
  apply (reach_insert t d d' r (lit "any valid text") (Some (lit "thanks"))
           (Some (lit "summary")) (Some (lit "actions")) fid);
  [|reflexivity].

Lemma sample_two_reachable : reachable 100 sample_two.
Proof.
  sample_insert 100 sample_one sample_two 4 2.
  sample_insert 100 _create_tables sample_one 5 1.
  apply (reach_create 100).
Defined.

Lemma sample_three_reachable : reachable 200 sample_three.
Proof.
  sample_insert 200 sample_two sample_three 1 3.
  apply (reach_tick 100 200); [apply sample_two_reachable|lia].
Defined.

(** C5: in every state of the store, the values of [rating_distribution]
    add up to [total_submissions], and the distribution has an entry for a
    rating exactly when some record has that rating (the entry is then the
    number of such records). *)
Theorem rating_distribution_consistent (now : Z) (d : FeedbackDatabase) :
  sum (values (rating_distribution (get_statistics now d))) =
    total_submissions (get_statistics now d) /\
  (forall k, is_Some (rating_distribution (get_statistics now d) !! k) <->
             exists r, r ∈ feedback d /\ rating r = k) /\
  (forall k c, rating_distribution (get_statistics now d) !! k = Some c ->
               c = count_rating k (feedback d)).
Proof.
  simpl.
  destruct (group_by_rating_spec (feedback d)) as (Ha & Hp & Hs & Hw).
  pose proof (ascending_NoDup _ Ha) as Hnd.
  split; [|split].
  - by rewrite dict_of_rows_values.
  - intros k. rewrite <- count_rating_pos, <- Hw. split.
    + intros [c Hc]. apply dict_of_rows_lookup in Hc; [|done].
      rewrite (weight_key k c); auto.
      rewrite Forall_forall in Hp. apply (Hp _ Hc).
    + intros Hpos.
      destruct (decide (k ∈ (group_by_rating (feedback d)).*1)) as [Hin|Hout].
      * apply list_elem_of_fmap in Hin as ([k' c] & -> & Hin).
        exists c. by apply dict_of_rows_lookup.
      * rewrite weight_not_key in Hpos; [lia|done].
  - intros k c Hc. apply dict_of_rows_lookup in Hc; [|done].
    rewrite <- Hw. symmetry. by apply weight_key.
Qed.

(** C6: [export_to_csv] writes one header row with the seven column names
    in order and as many data rows as [total_submissions], and returns
    that number. *)
Theorem export_to_csv_rows (now : Z) (filepath : pystr)
    (d : FeedbackDatabase) :
  let '((path, file), count) := export_to_csv filepath d in
  path = filepath /\
  header file =
    [lit "id"; lit "timestamp"; lit "rating"; lit "review_text";
     lit "user_response"; lit "admin_summary"; lit "recommended_actions"] /\
  Z.of_nat (length (data_rows file)) = total_submissions (get_statistics now d) /\
  data_rows file = map row_cells (get_all_feedback d) /\
  Forall (fun cells => length cells = 7%nat) (data_rows file) /\
  count = total_submissions (get_statistics now d).
Proof.
  unfold export_to_csv, to_csv, get_all_feedback, get_statistics.
  cbn [header data_rows total_submissions].
  rewrite length_map, order_by_length. repeat split.
  apply Forall_forall. intros cells Hin.
  apply list_elem_of_fmap in Hin as (r & -> & _). reflexivity.
Qed.


(** C10: the window of the last 24 hours includes its boundary: a record
    is counted in [recent_submissions_24h] exactly when its timestamp is
    at or after the instant 24 hours before the time of the query. *)
Theorem recent_window_inclusive (now : Z) (d : FeedbackDatabase) :
  recent_submissions_24h (get_statistics now d) =
    Z.of_nat (length (filter (fun r => now - 24 * 60 * 60 <= timestamp r)
                             (feedback d))) /\
  (forall r, within_last_day now r = true <->
             now - 24 * 60 * 60 <= timestamp r) /\
  (forall r, timestamp r = now - 24 * 60 * 60 ->
             within_last_day now r = true) /\
  (forall r, timestamp r = now - 24 * 60 * 60 - 1 ->
             within_last_day now r = false).
Proof.
  assert (Hspec : forall r, within_last_day now r = true <->
                            now - 24 * 60 * 60 <= timestamp r).
  { intros r. unfold within_last_day. rewrite Z.leb_le. lia. }
  split; [|split; [|split]].
  - simpl. f_equal. f_equal. apply list_filter_iff. exact Hspec.
  - exact Hspec.
  - intros r Hr. apply Hspec. lia.
  - intros r Hr. apply not_true_is_false. rewrite Hspec. lia.
Qed.

Lemma insert_ratings_reachable t ratings d :
  reachable t d -> reachable t (insert_ratings t ratings d).
Proof.
  revert d. induction ratings as [|r ratings IH]; intros d Hd; [done|].
  simpl. apply IH.
  destruct (insert_feedback t r (lit "any valid text") (Some (lit "thanks"))
              (Some (lit "summary")) (Some (lit "actions")) d)
    as [e|[d' fid]] eqn:E; [done|].
  by eapply reach_insert.
Qed.

Lemma sum_ratings_bounds rows :
  Forall (fun r => 1 <= rating r <= 5) rows ->
  Z.of_nat (length rows) <= sum (map rating rows) <=
  5 * Z.of_nat (length rows).
Proof.
  induction 1 as [|r rows Hr Hrows IH]; [simpl; lia|].
  cbn [map length]. rewrite sum_cons. lia.
Qed.

(** C9, as the code has it: with no record [average_rating] is the [int]
    0; with ratings in [1,5] and at most [2 ^ 43] records it is the float
    nearest to [k / 100], for an integer [k] such that [k / 100] is within
    0.005 of the arithmetic mean of the ratings, that is a nearest
    two-decimal number (either neighbour when the mean is halfway). *)
Theorem average_rating_rounded (now : Z) (d : FeedbackDatabase) :
  Forall (fun r => 1 <= rating r <= 5) (feedback d) ->
  Z.of_nat (length (feedback d)) <= 2 ^ 43 ->
  (feedback d = [] -> average_rating (get_statistics now d) = Int 0) /\
  (feedback d <> [] ->
   exists k : Z,
     average_rating (get_statistics now d) =
       Float (binary64.nearest (inject_Z k / 100)) /\
     (Qabs (inject_Z k / 100 - mean (feedback d)) <= 1 # 200)%Q).
Proof.
  intros Hr Hlen. unfold get_statistics, avg_rating_query.
  cbn [average_rating]. split.
  - by intros ->.
  - intros Hne. pose proof (sum_ratings_bounds _ Hr) as [Hlo Hhi].
    destruct (feedback d) as [|r0 rows] eqn:E; [done|]. clear Hne.
    set (col := r0 :: rows) in *.
    assert (Hn : 0 < Z.of_nat (length col)) by (simpl; lia).
    destruct (round2_of_avg (sum (map rating col)) (Z.of_nat (length col)))
      as [Hpos Hk]; [lia|lia|lia|].
    unfold or_zero, sql_avg, binary64.truthy. rewrite length_map.
    destruct (Qeq_bool _ 0) eqn:Ez.
    { apply Qeq_bool_iff in Ez. rewrite Ez in Hpos.
      by apply Qlt_irrefl in Hpos. }
    cbn [negb round2]. eexists. split; [reflexivity|exact Hk].
Qed.

Lemma average_rating_rounded_witness :
  Forall (fun r => 1 <= rating r <= 5) (feedback sample_three) /\
  Z.of_nat (length (feedback sample_three)) <= 2 ^ 43 /\
  exists k : Z,
    average_rating (get_statistics 200 sample_three) =
      Float (binary64.nearest (inject_Z k / 100)) /\
    (Qabs (inject_Z k / 100 - mean (feedback sample_three)) <= 1 # 200)%Q.
Proof.
  assert (Hr : Forall (fun r => 1 <= rating r <= 5) (feedback sample_three))
    by (repeat constructor; simpl; lia).
  assert (Hlen : Z.of_nat (length (feedback sample_three)) <= 2 ^ 43)
    by (simpl; lia).
  split; [exact Hr|]. split; [exact Hlen|].
  apply (average_rating_rounded 200 sample_three Hr Hlen). discriminate.
Defined.

(** C9 as stated fails. With forty records of mean 2.675, which rounds to
    2.68, [average_rating] is the float of 2.67: the float of the mean
    lies below 2.675. With one record rated [2 ^ 53 + 1], it is
    [2 ^ 53]. *)
Lemma average_rating_not_rounded_mean :
  reachable 100 sample_tie /\
  (mean (feedback sample_tie) == 2675 # 1000)%Q /\
  binary64.round_half_even (mean (feedback sample_tie) * 100) = 268 /\
  average_rating (get_statistics 100 sample_tie) =
    Float (binary64.nearest (267 # 100)) /\
  binary64.nearest (267 # 100) <> binary64.nearest (268 # 100) /\
  reachable 100 sample_huge /\
  (mean (feedback sample_huge) == 9007199254740993 # 1)%Q /\
  average_rating (get_statistics 100 sample_huge) =
    Float (9007199254740992 # 1).
Proof.
  split; [apply insert_ratings_reachable, reach_create|].
  split; [reflexivity|]. split; [reflexivity|].
  split; [unfold get_statistics; cbn [average_rating]; vm_compute; reflexivity|].
  split; [vm_compute; discriminate|].
  split; [apply insert_ratings_reachable, reach_create|].
  split; [reflexivity|].
  unfold get_statistics; cbn [average_rating]; vm_compute; reflexivity.
Qed.





(** * Properties of the response generator *)

Lemma generate_user_response_spec remote self r text sent :
  generate_user_response remote self r text sent =
  (inr (artifact (remote (length sent) (user_request self r text))
                 (user_response_fallback r)),
   sent ++ [user_request self r text]).
Proof.
  unfold generate_user_response, try_except, bind, ret, _call_api.
  fold (user_request self r text).
  destruct (remote (length sent) (user_request self r text)) as [c|[]];
    reflexivity.
Qed.

Lemma generate_admin_summary_spec remote self r text sent :
  generate_admin_summary remote self r text sent =
  (inr (artifact (remote (length sent) (summary_request self r text))
                 (admin_summary_fallback r)),
   sent ++ [summary_request self r text]).
Proof.
  unfold generate_admin_summary, try_except, bind, ret, _call_api.
  fold (summary_request self r text).
  destruct (remote (length sent) (summary_request self r text)) as [c|[]];
    reflexivity.
Qed.

Lemma generate_recommended_actions_spec remote self r text sent :
  generate_recommended_actions remote self r text sent =
  (inr (artifact (remote (length sent) (actions_request self r text))
                 (recommended_actions_fallback r)),
   sent ++ [actions_request self r text]).
Proof.
  unfold generate_recommended_actions, try_except, bind, ret, _call_api.
  fold (actions_request self r text).
  destruct (remote (length sent) (actions_request self r text)) as [c|[]];
    reflexivity.
Qed.

(** [process_feedback] always returns: three requests are sent, and each
    artifact is the trimmed answer or the fallback. *)
Lemma process_feedback_spec remote self r text sent :
  llm_handler.process_feedback remote self r text sent =
  (inr {| user_response :=
            artifact (remote (length sent) (user_request self r text))
                     (user_response_fallback r);
          admin_summary :=
            artifact (remote (S (length sent)) (summary_request self r text))
                     (admin_summary_fallback r);
          recommended_actions :=
            artifact (remote (S (S (length sent)))
                             (actions_request self r text))
                     (recommended_actions_fallback r) |},
   sent ++ [user_request self r text; summary_request self r text;
            actions_request self r text]).
Proof.
  unfold llm_handler.process_feedback, bind.
  rewrite generate_user_response_spec, generate_admin_summary_spec,
    generate_recommended_actions_spec.
  rewrite !length_app. simpl length.
  replace (length sent + 1)%nat with (S (length sent)) by lia.
  replace (S (length sent) + 1)%nat with (S (S (length sent))) by lia.
  unfold ret. by rewrite <- !app_assoc.
Qed.

Lemma rating_cases r : 1 <= r <= 5 -> r = 1 \/ r = 2 \/ r = 3 \/ r = 4 \/ r = 5.
Proof. lia. Qed.

Lemma user_response_fallback_contains r :
  contains (str_of_int r) (user_response_fallback r).
Proof.
  exists (lit "Thank you for your "),
    (lit "-star review! We appreciate your feedback and will use it to improve our service.").
  reflexivity.
Qed.

Lemma fallbacks_nonempty r :
  1 <= r <= 5 ->
  user_response_fallback r <> [] /\ admin_summary_fallback r <> [] /\
  recommended_actions_fallback r <> [].
Proof.
  intros Hr.
  destruct (rating_cases r Hr) as [->|[->|[->|[->| ->]]]];
    repeat split; discriminate.
Qed.

Lemma fallbacks_differ_across_bands r r' :
  1 <= r <= 5 -> 1 <= r' <= 5 -> band r <> band r' ->
  admin_summary_fallback r <> admin_summary_fallback r' /\
  recommended_actions_fallback r <> recommended_actions_fallback r'.
Proof.
  intros Hr Hr' Hb.
  destruct (rating_cases r Hr) as [->|[->|[->|[->| ->]]]];
    destruct (rating_cases r' Hr') as [->|[->|[->|[->| ->]]]];
    try (exfalso; apply Hb; reflexivity);
    split; discriminate.
Qed.

(** C3, as the code has it: for a rating in [1,5], [process_feedback]
    returns its three artifacts whatever the endpoint does; an artifact
    whose sub-call failed is the fallback for the rating, which is not
    empty, contains the rating for [user_response], and differs between
    ratings of different bands for [admin_summary] and
    [recommended_actions]; when all three sub-calls fail, all three
    artifacts are non-empty. *)
Theorem process_feedback_fallbacks (remote : Remote) (self : LLMHandler)
    (r : Z) (text : pystr) (sent : Net) :
  1 <= r <= 5 ->
  let answer_u := remote (length sent) (user_request self r text) in
  let answer_s := remote (S (length sent)) (summary_request self r text) in
  let answer_a := remote (S (S (length sent))) (actions_request self r text) in
  exists res sent',
    llm_handler.process_feedback remote self r text sent = (inr res, sent') /\
    (failed answer_u ->
     user_response res = user_response_fallback r /\
     user_response res <> [] /\
     contains (str_of_int r) (user_response res)) /\
    (failed answer_s ->
     admin_summary res = admin_summary_fallback r /\
     admin_summary res <> []) /\
    (failed answer_a ->
     recommended_actions res = recommended_actions_fallback r /\
     recommended_actions res <> []) /\
    (forall r', 1 <= r' <= 5 -> band r <> band r' ->
       admin_summary_fallback r <> admin_summary_fallback r' /\
       recommended_actions_fallback r <> recommended_actions_fallback r') /\
    (failed answer_u -> failed answer_s -> failed answer_a ->
     user_response res <> [] /\ admin_summary res <> [] /\
     recommended_actions res <> []) /\
    (forall c, answer_u = Content c -> user_response res = strip c) /\
    (forall c, answer_s = Content c -> admin_summary res = strip c) /\
    (forall c, answer_a = Content c -> recommended_actions res = strip c).
Proof.
  intros Hr. cbv zeta. eexists _, _. split; [apply process_feedback_spec|].
  destruct (fallbacks_nonempty r Hr) as (Hu & Ha & Hra).
  cbn [user_response admin_summary recommended_actions].
  destruct (remote (length sent) (user_request self r text)) as [cu|eu];
    destruct (remote (S (length sent)) (summary_request self r text))
      as [cs|es];
    destruct (remote (S (S (length sent))) (actions_request self r text))
      as [ca|ea];
    cbn [artifact failed];
    (repeat split;
     try contradiction; try discriminate; try congruence; auto;
     try apply user_response_fallback_contains;
     try (intros; apply fallbacks_differ_across_bands; assumption);
     try (intros ? [= ->]; reflexivity)).
Qed.

Lemma process_feedback_fallbacks_witness :
  1 <= 2 <= 5 /\
  exists res sent',
    llm_handler.process_feedback unreachable_remote sample_llm 2
      (lit "any valid text") [] = (inr res, sent') /\
    user_response res = user_response_fallback 2 /\
    admin_summary res = admin_summary_fallback 2 /\
    recommended_actions res = recommended_actions_fallback 2.
Proof.
  split; [lia|].
  destruct (process_feedback_fallbacks unreachable_remote sample_llm 2
              (lit "any valid text") [] ltac:(lia))
    as (res & sent' & Hrun & Hu & Ha & Hra & _).
  exists res, sent'. split; [exact Hrun|].
  split; [apply Hu; exact I|]. split; [apply Ha; exact I|].
  apply Hra. exact I.
Defined.

(** C3 as stated fails: with one sub-call failing, an artifact of a
    sub-call that succeeded can be the empty string. *)
Lemma failed_call_and_empty_artifact :
  1 <= 5 <= 5 /\
  failed (blank_remote 0%nat
            (user_request sample_llm 5 (lit "any valid text"))) /\
  exists res sent',
    llm_handler.process_feedback blank_remote sample_llm 5
      (lit "any valid text") [] = (inr res, sent') /\
    admin_summary res = [] /\ recommended_actions res = [].
Proof.
  split; [lia|]. split; [exact I|].
  eexists _, _. split; [apply process_feedback_spec|].
  split; reflexivity.
Qed.

(** * Properties of the submission path *)

Lemma truthy_or_else k : truthy k = true -> or_else (Some k) None = Some k.
Proof. unfold or_else. by intros ->. Qed.

(** A submission that passes the two checks of the text, with the key
    set: the handler is fetched, the three requests are sent, and the row
    is inserted unless the rating does not fit an [INTEGER]. *)
Lemma try_body_configured env r text w k :
  user_dashboard.OPENROUTER_API_KEY env = Some k -> truthy k = true ->
  let h := handler_for k w in
  let res := responses_for env h r text w in
  let sent' := user_dashboard.sent w ++
                 [user_request h r text; summary_request h r text;
                  actions_request h r text] in
  user_dashboard.try_body env r text w =
  if sqlite_int r then
    let data :=
      {| user_dashboard.feedback_id :=
           sqlite_sequence (user_dashboard.db w) + 1;
         user_dashboard.rating := r;
         user_dashboard.review := text;
         user_dashboard.response := user_response res |} in
    (inr (user_dashboard.Submitted data),
     {| user_dashboard.db :=
          {| feedback := feedback (user_dashboard.db w) ++
                           [submitted_row env res r text w];
             sqlite_sequence := sqlite_sequence (user_dashboard.db w) + 1 |};
        user_dashboard._llm_instance := Some h;
        user_dashboard.sent := sent';
        user_dashboard.response_data := Some data |})
  else
    (inl (OverflowError
            (lit "Python int too large to convert to SQLite INTEGER")),
     {| user_dashboard.db := user_dashboard.db w;
        user_dashboard._llm_instance := Some h;
        user_dashboard.sent := sent';
        user_dashboard.response_data := user_dashboard.response_data w |}).
Proof.
  intros Hk Ht. cbv zeta.
  unfold user_dashboard.try_body. rewrite Hk, (truthy_or_else k Ht).
  unfold bind at 1. unfold user_dashboard.get_llm_handler.
  assert (Hget : llm_handler.get_llm_handler (Some k) None
                   (user_dashboard.OPENROUTER_API_KEY env)
                   (user_dashboard._llm_instance w) =
                 inr (handler_for k w, Some (handler_for k w))).
  { unfold llm_handler.get_llm_handler, handler_for.
    destruct (user_dashboard._llm_instance w); [reflexivity|].
    unfold __init__. rewrite Hk. simpl.
    rewrite Ht. simpl. rewrite Ht. reflexivity. }
  rewrite Hget.
  unfold bind at 1. unfold user_dashboard.process_feedback.
  cbn [user_dashboard.sent user_dashboard.db user_dashboard._llm_instance
       user_dashboard.response_data].
  rewrite process_feedback_spec.
  fold (responses_for env (handler_for k w) r text w).
  unfold bind at 1. unfold user_dashboard.insert_feedback.
  cbn [user_dashboard.sent user_dashboard.db user_dashboard._llm_instance
       user_dashboard.response_data user_dashboard.now].
  unfold insert_feedback.
  destruct (sqlite_int r); reflexivity.
Qed.

(** C4: a review text of trimmed length below 10, the empty text
    included, is rejected with a validation error; the world is left as it
    was, so no request is sent and nothing is stored. *)
Theorem short_review_rejected (env : user_dashboard.Env) (r : Z)
    (text : pystr) (w : user_dashboard.World) :
  len (strip text) < 10 ->
  exists msg,
    user_dashboard.process_submission env r text w =
      (user_dashboard.ValidationError msg, w) /\
    user_dashboard.sent
      (user_dashboard.process_submission env r text w).2 =
      user_dashboard.sent w /\
    user_dashboard.db
      (user_dashboard.process_submission env r text w).2 =
      user_dashboard.db w.
Proof.
  intros Hlen. unfold user_dashboard.process_submission.
  destruct (truthy (strip text)); simpl.
  - destruct (Z.ltb_spec (len (strip text)) 10); [|lia].
    eexists. repeat split.
  - eexists. repeat split.
Qed.

Lemma short_review_rejected_witness :
  len (strip (lit "  too short ")) < 10 /\
  exists msg,
    user_dashboard.process_submission sample_env 5 (lit "  too short ")
      user_dashboard.start =
      (user_dashboard.ValidationError msg, user_dashboard.start).
Proof.
  split; [reflexivity|].
  destruct (short_review_rejected sample_env 5 (lit "  too short ")
              user_dashboard.start ltac:(reflexivity)) as (msg & H & _).
  exists msg. exact H.
Defined.

Lemma or_else_None_Some a k :
  or_else a None = Some k -> a = Some k /\ truthy k = true.
Proof.
  unfold or_else. destruct a as [s|]; [|discriminate].
  destruct (truthy s) eqn:E; [|discriminate]. intros [= ->]. auto.
Qed.

Lemma or_else_None_None a : or_else a None = None ->
  forall k, a = Some k -> truthy k = false.
Proof.
  unfold or_else. intros H k ->. destruct (truthy k); [discriminate|done].
Qed.

Lemma rating_options_range r :
  r ∈ user_dashboard.rating_options <-> 1 <= r <= 5.
Proof.
  unfold user_dashboard.rating_options. rewrite !elem_of_cons.
  rewrite elem_of_nil. lia.
Qed.

Lemma long_text_truthy text : 10 <= len (strip text) -> truthy (strip text) = true.
Proof. unfold len. destruct (strip text); simpl; [lia|done]. Qed.

(** What a submission does to the table: nothing, or one more row with
    its three derived columns set. *)
Lemma process_submission_feedback env r text w :
  let w' := (user_dashboard.process_submission env r text w).2 in
  feedback (user_dashboard.db w') = feedback (user_dashboard.db w) \/
  exists row, fully_populated row /\
    feedback (user_dashboard.db w') =
      feedback (user_dashboard.db w) ++ [row].
Proof.
  cbv zeta. unfold user_dashboard.process_submission.
  destruct (truthy (strip text)); simpl; [|by left].
  destruct (len (strip text) <? 10); [by left|].
  destruct (or_else (user_dashboard.OPENROUTER_API_KEY env) None)
    as [k|] eqn:Hkey.
  - apply or_else_None_Some in Hkey as [Hk Ht].
    rewrite (try_body_configured env r text w k Hk Ht).
    destruct (sqlite_int r); simpl; [|by left].
    right. eexists. split; [|reflexivity].
    unfold fully_populated, submitted_row. simpl. eauto.
  - unfold user_dashboard.try_body. rewrite Hkey. simpl. by left.
Qed.

(** ** The rating of the form *)

(** The slider gives one of its options. *)
Lemma select_slider_elem (options : list Z) handle :
  user_dashboard.select_slider options handle ∈ options.
Proof.
  unfold user_dashboard.select_slider.
  apply list_elem_of_lookup_total_2, fin_to_nat_lt.
Qed.

Lemma select_slider_range handle :
  1 <= user_dashboard.select_slider user_dashboard.rating_options handle <= 5.
Proof. apply rating_options_range, select_slider_elem. Qed.


(** For a rating from 1 to 5 the two lines of the form raise nothing: the
    display has that many filled stars, then hollow ones up to five, and
    the dict has a description. *)
Lemma form_lines r :
  1 <= r <= 5 ->
  user_dashboard.stars r =
    inr (mjoin (replicate (Z.to_nat r) user_dashboard.star) ++
         mjoin (replicate (Z.to_nat (5 - r)) user_dashboard.white_star)) /\
  exists info,
    user_dashboard.rating_descriptions !! r = Some info /\
    user_dashboard.getitem user_dashboard.rating_descriptions r = inr info.
Proof.
  intros Hr.
  destruct (rating_cases r Hr) as [->|[->|[->|[->| ->]]]];
    (split; [reflexivity|]); eexists; split; reflexivity.
Qed.

(** A run of the form: the display of the rating, and the block when the
    button was pressed. *)
Lemma form_run_spec env handle text (submit : bool) w :
  let r := user_dashboard.select_slider user_dashboard.rating_options handle in
  exists info,
    user_dashboard.rating_descriptions !! r = Some info /\
    user_dashboard.form_run env handle text submit w =
      (inr {| user_dashboard.star_rating :=
                mjoin (replicate (Z.to_nat r) user_dashboard.star) ++
                mjoin (replicate (Z.to_nat (5 - r)) user_dashboard.white_star);
              user_dashboard.description := info;
              user_dashboard.outcome :=
                if submit
                then Some (user_dashboard.process_submission env r text w).1
                else None |},
       if submit then (user_dashboard.process_submission env r text w).2
       else w).
Proof.
  cbv zeta.
  destruct (form_lines _ (select_slider_range handle))
    as (Hstars & info & Hinfo & Hget).
  exists info. split; [exact Hinfo|].
  unfold user_dashboard.form_run. rewrite Hstars, Hget.
  destruct submit; [|reflexivity].
  by destruct (user_dashboard.process_submission env _ text w).
Qed.






(** C2, as the code has it: every record stored through the application
    (submissions on the user dashboard, deletions and clearing) has its
    three derived fields set to strings; the store itself also accepts a
    record without them. *)
Theorem submitted_records_populated (w : user_dashboard.World) :
  app_reachable w ->
  Forall fully_populated (feedback (user_dashboard.db w)).
Proof.
  induction 1 as [|env r text w Hw IH|fid w Hw IH|w Hw IH].
  - constructor.
  - destruct (process_submission_feedback env r text w) as [->|(row & Hp & ->)];
      [done|].
    apply Forall_app. split; [done|by constructor].
  - simpl. by apply Forall_filter_keep.
  - constructor.
Qed.

Lemma submitted_records_populated_witness :
  app_reachable
    (user_dashboard.process_submission sample_env 5 (lit "any valid text")
       user_dashboard.start).2 /\
  Forall fully_populated
    (feedback (user_dashboard.db
       (user_dashboard.process_submission sample_env 5 (lit "any valid text")
          user_dashboard.start).2)).
Proof.
  assert (H : app_reachable
    (user_dashboard.process_submission sample_env 5 (lit "any valid text")
       user_dashboard.start).2)
    by (apply app_submit, app_start).
  split; [exact H|].
  exact (submitted_records_populated _ H).
Defined.

(** C2 as stated fails: [insert_feedback] called with its defaults stores
    a record whose three derived fields are null. *)
Lemma insert_defaults_stores_nulls :
  insert_feedback 100 5 (lit "any valid text") None None None
    _create_tables = inr (sample_nulls, 1) /\
  reachable 100 sample_nulls /\
  feedback sample_nulls = [null_row] /\
  database.user_response null_row = None /\
  database.admin_summary null_row = None /\
  database.recommended_actions null_row = None /\
  ~ Forall fully_populated (feedback sample_nulls).
Proof.
  split; [reflexivity|]. split.
  - apply (reach_insert 100 _create_tables sample_nulls 5
             (lit "any valid text") None None None 1);
      [apply reach_create|reflexivity].
  - repeat split. intros H. apply Forall_cons in H as [([x Hx] & _) _].
    discriminate.
Qed.

(** * Further properties of the store *)

(** Whatever the table, the result of [ORDER BY timestamp DESC] has its
    timestamps in non-increasing order. *)
Lemma order_insert_desc r sorted :
  StronglySorted (fun a b => timestamp b <= timestamp a) sorted ->
  StronglySorted (fun a b => timestamp b <= timestamp a)
                 (order_insert r sorted).
Proof.
  induction sorted as [|x rest IH]; simpl; intros Hs.
  - repeat constructor.
  - apply StronglySorted_inv in Hs as [Hs Hall].
    destruct (Z.ltb_spec (timestamp r) (timestamp x)).
    + constructor; [auto|].
      rewrite order_insert_Permutation. constructor; [lia|done].
    + constructor; [by constructor|].
      constructor; [lia|].
      eapply Forall_impl; [exact Hall|]. simpl. intros. lia.
Qed.

Lemma order_by_desc rows :
  StronglySorted (fun a b => timestamp b <= timestamp a)
                 (order_by_timestamp_desc rows).
Proof.
  induction rows as [|r rows IH]; simpl; [constructor|].
  by apply order_insert_desc.
Qed.

Lemma order_insert_front r sorted :
  Forall (fun x => timestamp x <= timestamp r) sorted ->
  order_insert r sorted = r :: sorted.
Proof.
  destruct 1 as [|x rest Hx _]; [done|]. simpl.
  destruct (Z.ltb_spec (timestamp r) (timestamp x)); [lia|done].
Qed.

(** Selecting rows before or after the ordering gives the same result. *)
Lemma filter_order_insert (P : Row -> Prop) `{forall x, Decision (P x)}
    r sorted :
  StronglySorted (fun a b => timestamp b <= timestamp a) sorted ->
  filter P (order_insert r sorted) =
  if decide (P r) then order_insert r (filter P sorted) else filter P sorted.
Proof.
  induction sorted as [|x rest IH]; intros Hs.
  - simpl. rewrite filter_cons, filter_nil. by destruct (decide (P r)).
  - apply StronglySorted_inv in Hs as [Hs Hall]. simpl.
    destruct (Z.ltb_spec (timestamp r) (timestamp x)) as [Hlt|Hge].
    + rewrite !filter_cons, (IH Hs).
      destruct (decide (P x)), (decide (P r)); simpl; try done.
      destruct (Z.ltb_spec (timestamp r) (timestamp x)); [done|lia].
    + rewrite !(filter_cons _ r), !(filter_cons _ x).
      destruct (decide (P r)); [|done].
      destruct (decide (P x)).
      * simpl. destruct (Z.ltb_spec (timestamp r) (timestamp x)); [lia|done].
      * symmetry. apply order_insert_front.
        apply Forall_filter_keep.
        eapply Forall_impl; [exact Hall|]. simpl. intros. lia.
Qed.

Lemma filter_order_by (P : Row -> Prop) `{forall x, Decision (P x)} rows :
  filter P (order_by_timestamp_desc rows) =
  order_by_timestamp_desc (filter P rows).
Proof.
  induction rows as [|r rows IH]; [done|].
  simpl. rewrite filter_order_insert by apply order_by_desc.
  rewrite filter_cons. destruct (decide (P r)); simpl; by rewrite IH.
Qed.

(** Ids of a reachable database start at 1, and the rating of every row
    fits an [INTEGER]. *)
Lemma reachable_rows t d :
  reachable t d ->
  0 <= sqlite_sequence d /\
  Forall (fun r => 1 <= id r /\ sqlite_int (rating r) = true) (feedback d).
Proof.
  induction 1 as [t|t t' d Hr IH Hle|t d d' r text u a ra fid Hr IH Hins
                 |t d fid Hr IH|t d Hr IH].
  - simpl. split; [lia|constructor].
  - done.
  - destruct IH as [Hs Hall]. unfold insert_feedback in Hins.
    destruct (sqlite_int r) eqn:Hint; [|discriminate].
    inversion Hins; subst; clear Hins. simpl. split; [lia|].
    apply Forall_app. split; [done|]. repeat constructor; simpl; [lia|done].
  - destruct IH as [Hs Hall]. simpl. split; [done|].
    by apply Forall_filter_keep.
  - destruct IH as [Hs Hall]. simpl. split; [done|constructor].
Qed.

Lemma get_feedback_by_id_None fid d :
  get_feedback_by_id fid d = None <->
  forall r, r ∈ feedback d -> id r <> fid.
Proof.
  unfold get_feedback_by_id. split.
  - intros Hnone r Hin Hid.
    assert (Hin' : r ∈ filter (fun r => id r = fid) (feedback d))
      by (apply list_elem_of_filter; auto).
    destruct (filter (fun r => id r = fid) (feedback d));
      [by apply elem_of_nil in Hin'|discriminate].
  - intros Hall. rewrite (filter_none (fun r => id r = fid)); [done|].
    apply Forall_forall. auto.
Qed.

(** X1: in a reachable database an insert gives an id that was not in use;
    looking that id up afterwards returns the record just inserted, with
    the clock time as its timestamp, and every other lookup is as
    before. *)
Theorem insert_then_get_by_id (t : Z) (d d' : FeedbackDatabase) (r : Z)
    (text : pystr) (u a ra : option pystr) (fid : Z) :
  reachable t d ->
  insert_feedback t r text u a ra d = inr (d', fid) ->
  get_feedback_by_id fid d = None /\
  get_feedback_by_id fid d' = Some (mkRow fid t r text u a ra) /\
  (forall i, i <> fid -> get_feedback_by_id i d' = get_feedback_by_id i d) /\
  feedback d' = feedback d ++ [mkRow fid t r text u a ra].
Proof.
  intros Hr Hins. apply reachable_inv in Hr as [_ Hall].
  unfold insert_feedback in Hins.
  destruct (sqlite_int r); [|discriminate].
  inversion Hins; subst; clear Hins.
  assert (Hfresh : forall x, x ∈ feedback d -> id x <> sqlite_sequence d + 1).
  { intros x Hx. rewrite Forall_forall in Hall. destruct (Hall x Hx). lia. }
  split; [by apply get_feedback_by_id_None|].
  unfold get_feedback_by_id. cbn [feedback].
  split; [|split; [|done]].
  - rewrite filter_app, (filter_none (fun x => id x = sqlite_sequence d + 1));
      [|by apply Forall_forall].
    rewrite filter_cons, filter_nil. cbn [id].
    by destruct (decide (sqlite_sequence d + 1 = sqlite_sequence d + 1)).
  - intros i Hi. rewrite filter_app, filter_cons, filter_nil. cbn [id].
    destruct (decide (sqlite_sequence d + 1 = i)); [congruence|].
    by rewrite app_nil_r.
Qed.

Lemma insert_then_get_by_id_witness :
  reachable 200 sample_three /\
  insert_feedback 200 2 (lit "needs more salt") None None None sample_three =
    inr ({| feedback := feedback sample_three ++
              [mkRow 4 200 2 (lit "needs more salt") None None None];
            sqlite_sequence := 4 |}, 4) /\
  get_feedback_by_id 4
    {| feedback := feedback sample_three ++
         [mkRow 4 200 2 (lit "needs more salt") None None None];
       sqlite_sequence := 4 |} =
    Some (mkRow 4 200 2 (lit "needs more salt") None None None).
Proof.
  split; [exact sample_three_reachable|]. split; [reflexivity|].
  apply (insert_then_get_by_id 200 sample_three _ 2 (lit "needs more salt")
           None None None 4 sample_three_reachable eq_refl).
Defined.


(** X3: ids are never reused. In a reachable database every id lies
    between 1 and [sqlite_sequence]; deleting a record or clearing the
    table keeps [sqlite_sequence], so that an insert after either still
    gets an id above every id that was in the table. *)
Theorem ids_never_reused (t : Z) (d : FeedbackDatabase) :
  reachable t d ->
  (forall row, row ∈ feedback d -> 1 <= id row <= sqlite_sequence d) /\
  (forall d0, d0 = d \/ d0 = clear_all_data d \/
              (exists i, d0 = (delete_feedback i d).1) ->
   forall t' r text u a ra d' fid,
     insert_feedback t' r text u a ra d0 = inr (d', fid) ->
     fid = sqlite_sequence d + 1 /\
     sqlite_sequence d' = fid /\
     forall row, row ∈ feedback d -> id row < fid).
Proof.
  intros Hr. pose proof (reachable_inv _ _ Hr) as [_ Hle].
  pose proof (reachable_rows _ _ Hr) as [_ Hge].
  rewrite Forall_forall in Hle, Hge.
  split.
  - intros row Hin. destruct (Hle row Hin), (Hge row Hin). lia.
  - intros d0 Hd0 t' r text u a ra d' fid Hins.
    assert (Hseq : sqlite_sequence d0 = sqlite_sequence d).
    { destruct Hd0 as [->|[->|[i ->]]]; reflexivity. }
    unfold insert_feedback in Hins.
    destruct (sqlite_int r); [|discriminate].
    inversion Hins; subst; clear Hins. cbn [sqlite_sequence].
    rewrite Hseq. repeat split.
    intros row Hin. destruct (Hle row Hin). lia.
Qed.

Lemma ids_never_reused_witness :
  reachable 200 sample_three /\
  (forall row, row ∈ feedback sample_three ->
               1 <= id row <= sqlite_sequence sample_three) /\
  forall d' fid,
    insert_feedback 300 5 (lit "any valid text") None None None
      (clear_all_data sample_three) = inr (d', fid) ->
    fid = 4.
Proof.
  split; [exact sample_three_reachable|].
  destruct (ids_never_reused 200 sample_three sample_three_reachable)
    as [Hids Hnext].
  split; [exact Hids|].
  intros d' fid Hins.
  apply (Hnext (clear_all_data sample_three) (or_intror (or_introl eq_refl))
           300 5 (lit "any valid text") None None None d' fid Hins).
Defined.

(** The entry of [rating_distribution] for a rating: the number of records
    with that rating, and no entry when there is none. *)
Lemma rating_distribution_lookup now d k :
  rating_distribution (get_statistics now d) !! k =
  if decide (0 < count_rating k (feedback d))
  then Some (count_rating k (feedback d)) else None.
Proof.
  cbn [rating_distribution get_statistics].
  destruct (group_by_rating_spec (feedback d)) as (Ha & Hp & _ & Hw).
  pose proof (ascending_NoDup _ Ha) as Hnd.
  destruct (dict_of_rows (group_by_rating (feedback d)) !! k) as [c|] eqn:E.
  - apply dict_of_rows_lookup in E; [|done].
    rewrite <- Hw, (weight_key k c) by done.
    rewrite Forall_forall in Hp. specialize (Hp _ E). simpl in Hp.
    by destruct (decide (0 < c)).
  - destruct (decide (0 < count_rating k (feedback d))) as [Hpos|]; [|done].
    rewrite <- Hw in Hpos.
    destruct (decide (k ∈ (group_by_rating (feedback d)).*1)) as [Hin|Hout].
    + apply list_elem_of_fmap in Hin as ([k' c] & -> & Hin).
      apply dict_of_rows_lookup in Hin; [|done]. cbn [fst] in E. congruence.
    + rewrite weight_not_key in Hpos; [lia|done].
Qed.

Lemma count_rating_snoc k rows x :
  count_rating k (rows ++ [x]) =
  count_rating k rows + (if decide (rating x = k) then 1 else 0).
Proof.
  unfold count_rating. rewrite filter_app, length_app, filter_cons, filter_nil.
  destruct (decide (rating x = k)); simpl; lia.
Qed.

Lemma count_rating_nonneg k rows : 0 <= count_rating k rows.
Proof. unfold count_rating. lia. Qed.


(** X5: deleting a record does not reorder the others: the result of
    [get_all_feedback] after [delete_feedback] is the result before it
    without the records of that id. *)
Theorem delete_feedback_keeps_order (fid : Z) (d : FeedbackDatabase) :
  get_all_feedback (delete_feedback fid d).1 =
    filter (fun r => id r <> fid) (get_all_feedback d) /\
  get_all_feedback (delete_feedback fid d).1 `sublist_of` get_all_feedback d.
Proof.
  assert (Heq : get_all_feedback (delete_feedback fid d).1 =
                filter (fun r => id r <> fid) (get_all_feedback d)).
  { unfold get_all_feedback. simpl. by rewrite filter_order_by. }
  split; [exact Heq|]. rewrite Heq. apply sublist_filter.
Qed.


(** X7: a successful insert raises [total_submissions] by one and the
    entry of its rating in [rating_distribution] by one (creating it at 1),
    leaves the other entries as they are, and raises
    [recent_submissions_24h] by one exactly when the query is made no more
    than 24 hours after the insert. *)
Theorem insert_updates_statistics (t now : Z) (d d' : FeedbackDatabase)
    (r : Z) (text : pystr) (u a ra : option pystr) (fid : Z) :
  insert_feedback t r text u a ra d = inr (d', fid) ->
  total_submissions (get_statistics now d') =
    total_submissions (get_statistics now d) + 1 /\
  rating_distribution (get_statistics now d') !! r =
    Some (default 0 (rating_distribution (get_statistics now d) !! r) + 1) /\
  (forall k, k <> r ->
     rating_distribution (get_statistics now d') !! k =
     rating_distribution (get_statistics now d) !! k) /\
  recent_submissions_24h (get_statistics now d') =
    recent_submissions_24h (get_statistics now d) +
    (if now - 86400 <=? t then 1 else 0).
Proof.
  intros Hins. unfold insert_feedback in Hins.
  destruct (sqlite_int r); [|discriminate].
  inversion Hins; subst; clear Hins.
  split; [|split; [|split]].
  - cbn [total_submissions get_statistics feedback].
    rewrite length_app. simpl. lia.
  - rewrite !rating_distribution_lookup. cbn [feedback].
    rewrite count_rating_snoc. cbn [rating].
    pose proof (count_rating_nonneg r (feedback d)).
    destruct (decide (r = r)); [|done].
    destruct (decide (0 < count_rating r (feedback d) + 1)); [|lia].
    destruct (decide (0 < count_rating r (feedback d))); simpl;
      f_equal; lia.
  - intros k Hk. rewrite !rating_distribution_lookup. cbn [feedback].
    rewrite count_rating_snoc. cbn [rating].
    destruct (decide (r = k)); [congruence|]. by rewrite Z.add_0_r.
  - cbn [recent_submissions_24h get_statistics feedback].
    rewrite filter_app, length_app, filter_cons, filter_nil.
    match goal with
    | |- context [decide ?P] => destruct (decide P) as [Hin|Hout]
    end.
    + unfold within_last_day in Hin. cbn [timestamp] in Hin.
      rewrite Hin. simpl. lia.
    + unfold within_last_day in Hout. cbn [timestamp] in Hout.
      destruct (now - 86400 <=? t); [done|]. simpl. lia.
Qed.

Lemma insert_updates_statistics_witness :
  insert_feedback 200 1 (lit "any valid text") (Some (lit "thanks"))
    (Some (lit "summary")) (Some (lit "actions")) sample_two =
    inr (sample_three, 3) /\
  total_submissions (get_statistics 250 sample_three) =
    total_submissions (get_statistics 250 sample_two) + 1 /\
  rating_distribution (get_statistics 250 sample_three) !! 1 =
    Some (default 0 (rating_distribution (get_statistics 250 sample_two) !! 1)
          + 1).
Proof.
  split; [reflexivity|].
  destruct (insert_updates_statistics 200 250 sample_two sample_three 1
              (lit "any valid text") (Some (lit "thanks"))
              (Some (lit "summary")) (Some (lit "actions")) 3 eq_refl)
    as (H1 & H2 & _).
  split; [exact H1|exact H2].
Defined.


(** * Further properties of the response generator *)

Lemma lstrip_spec s :
  exists pre, s = pre ++ lstrip s /\ Forall (fun c => isspace c = true) pre /\
              forall c s', lstrip s = c :: s' -> isspace c = false.
Proof.
  induction s as [|c s (pre & Heq & Hpre & Hhead)]; simpl.
  - exists []. repeat split; [constructor|discriminate].
  - destruct (isspace c) eqn:E.
    + exists (c :: pre). simpl. rewrite <- Heq. repeat split; auto.
    + exists []. repeat split; [constructor|]. by intros c' s' [= <- _].
Qed.

Lemma rstrip_spec s :
  exists post, s = rstrip s ++ post /\
               Forall (fun c => isspace c = true) post /\
               forall s' c, rstrip s = s' ++ [c] -> isspace c = false.
Proof.
  unfold rstrip. destruct (lstrip_spec (rev s)) as (pre & Heq & Hpre & Hhead).
  exists (rev pre). split; [|split].
  - rewrite <- rev_app_distr, <- Heq. by rewrite rev_involutive.
  - apply Forall_forall. intros c Hc. rewrite Forall_forall in Hpre.
    apply Hpre. apply list_elem_of_In. apply in_rev.
    by apply list_elem_of_In.
  - intros s' c Hs'. apply (Hhead c (rev s')).
    rewrite <- (rev_involutive (lstrip (rev s))), Hs', rev_app_distr.
    reflexivity.
Qed.

(** [strip] removes white space at both ends and nothing else. *)
Lemma strip_spec s :
  exists pre post,
    s = pre ++ strip s ++ post /\
    Forall (fun c => isspace c = true) pre /\
    Forall (fun c => isspace c = true) post /\
    (forall c s', strip s = c :: s' -> isspace c = false) /\
    (forall s' c, strip s = s' ++ [c] -> isspace c = false).
Proof.
  unfold strip.
  destruct (lstrip_spec s) as (pre & Heq & Hpre & Hhead).
  destruct (rstrip_spec (lstrip s)) as (post & Heq' & Hpost & Hlast).
  exists pre, post. split; [|split; [done|split; [done|split; [|done]]]].
  - by rewrite <- Heq', <- Heq.
  - intros c s' Hs. rewrite Hs in Heq'. simpl in Heq'.
    by apply (Hhead c (s' ++ post)).
Qed.

Lemma lstrip_id s :
  (forall c s', s = c :: s' -> isspace c = false) -> lstrip s = s.
Proof.
  destruct s as [|c s]; [done|]. intros H. simpl.
  by rewrite (H c s eq_refl).
Qed.

Lemma strip_idempotent s : strip (strip s) = strip s.
Proof.
  destruct (strip_spec s) as (_ & _ & _ & _ & _ & Hhead & Hlast).
  unfold strip at 1. rewrite (lstrip_id (strip s)) by exact Hhead.
  unfold rstrip. rewrite lstrip_id; [apply rev_involutive|].
  intros c s' Hrev. apply (Hlast (rev s') c).
  rewrite <- (rev_involutive (strip s)), Hrev. reflexivity.
Qed.

(** X9: [_call_api] sends exactly one request, with the bearer token of the
    handler and a timeout of 30 seconds, and never lets a
    [RequestException] or a [KeyError] out: either is replaced by an
    [Exception] whose message ends with the original one, while any other
    error is passed on as it is. *)
Theorem _call_api_errors (remote : Remote) (self : LLMHandler)
    (prompt : pystr) (temp : Q) (max_tok : Z) (sent : Net) :
  let req := post_data self prompt temp max_tok in
  let out := _call_api remote self prompt temp max_tok sent in
  out.2 = sent ++ [req] /\
  authorization req = lit "Bearer " ++ api_key self /\
  timeout req = 30 /\ content req = prompt /\
  (forall m, out.1 <> inl (RequestException m)) /\
  (forall m, out.1 <> inl (KeyError m)) /\
  (forall m, remote (length sent) req = Raises (RequestException m) ->
     out.1 = inl (Exception (lit "OpenRouter API request failed: " ++ m))) /\
  (forall m, remote (length sent) req = Raises (KeyError m) ->
     out.1 = inl (Exception (lit "Unexpected API response format: " ++ m))) /\
  (forall e, remote (length sent) req = Raises e ->
     (forall m, e <> RequestException m) -> (forall m, e <> KeyError m) ->
     out.1 = inl e).
Proof.
  cbv zeta. unfold _call_api.
  destruct (remote (length sent) (post_data self prompt temp max_tok))
    as [c|[m|m|m|m|m|m]]; cbn [fst snd];
    repeat split; try discriminate; try congruence;
    try (intros ? [= <-]; reflexivity);
    try (intros e [= <-] H1 H2;
         first [by destruct (H1 m)|by destruct (H2 m)|done]).
Qed.

(** X10: the text a successful [_call_api] returns is the content of the
    answer without its leading and trailing white space: it neither starts
    nor ends with a white space character, and stripping it again changes
    nothing. *)
Theorem _call_api_result_trimmed (remote : Remote) (self : LLMHandler)
    (prompt : pystr) (temp : Q) (max_tok : Z) (sent : Net) (text : pystr) :
  remote (length sent) (post_data self prompt temp max_tok) = Content text ->
  exists s pre post,
    (_call_api remote self prompt temp max_tok sent).1 = inr s /\
    text = pre ++ s ++ post /\
    Forall (fun c => isspace c = true) pre /\
    Forall (fun c => isspace c = true) post /\
    (forall c s', s = c :: s' -> isspace c = false) /\
    (forall s' c, s = s' ++ [c] -> isspace c = false) /\
    strip s = s.
Proof.
  intros Hr. unfold _call_api. rewrite Hr. cbn [fst].
  destruct (strip_spec text) as (pre & post & H1 & H2 & H3 & H4 & H5).
  exists (strip text), pre, post.
  repeat split; auto. apply strip_idempotent.
Qed.

Lemma _call_api_result_trimmed_witness :
  blank_remote 1%nat (post_data sample_llm (lit "hello") (7 # 10)%Q 200) =
    Content (lit "   ") /\
  exists s,
    (_call_api blank_remote sample_llm (lit "hello") (7 # 10)%Q 200
       [post_data sample_llm (lit "hello") (7 # 10)%Q 200]).1 = inr s /\
    strip s = s.
Proof.
  split; [reflexivity|].
  destruct (_call_api_result_trimmed blank_remote sample_llm (lit "hello")
              (7 # 10)%Q 200
              [post_data sample_llm (lit "hello") (7 # 10)%Q 200]
              (lit "   ") eq_refl)
    as (s & pre & post & H1 & _ & _ & _ & _ & _ & H7).
  exists s. split; [exact H1|exact H7].
Defined.

(** X11: the module keeps one handler. Once it exists, [get_llm_handler]
    returns it whatever key and model are passed; without one, the key
    passed is used when it is not empty and the environment's key
    otherwise, the model defaults to [mistralai/mistral-7b-instruct:free],
    and with no key at all a [ValueError] is raised and no handler is
    kept. *)
Theorem get_llm_handler_singleton (key model_ env_key : option pystr) :
  (forall h, llm_handler.get_llm_handler key model_ env_key (Some h) =
             inr (h, Some h)) /\
  (forall k, key = Some k -> truthy k = true ->
     exists h, llm_handler.get_llm_handler key model_ env_key None =
                 inr (h, Some h) /\ api_key h = k) /\
  (forall k, key = None \/ key = Some [] ->
     env_key = Some k -> truthy k = true ->
     exists h, llm_handler.get_llm_handler key model_ env_key None =
                 inr (h, Some h) /\ api_key h = k) /\
  (key = None \/ key = Some [] -> env_key = None \/ env_key = Some [] ->
   exists msg, llm_handler.get_llm_handler key model_ env_key None =
                 inl (ValueError msg)) /\
  (forall h inst,
     llm_handler.get_llm_handler key model_ env_key None = inr (h, inst) ->
     inst = Some h /\
     api_url h = lit "https://openrouter.ai/api/v1/chat/completions" /\
     (model_ = None \/ model_ = Some [] ->
      model h = lit "mistralai/mistral-7b-instruct:free") /\
     (forall m, model_ = Some m -> truthy m = true -> model h = m)).
Proof.
  split; [reflexivity|]. split; [|split; [|split]].
  - intros k -> Hk. unfold llm_handler.get_llm_handler, __init__, or_else.
    rewrite Hk. simpl. rewrite Hk. eexists. split; reflexivity.
  - intros k Hkey -> Hk.
    unfold llm_handler.get_llm_handler, __init__, or_else.
    destruct Hkey as [->| ->]; simpl; rewrite Hk; eexists; split; reflexivity.
  - intros Hkey Henv. unfold llm_handler.get_llm_handler, __init__, or_else.
    destruct Hkey as [->| ->], Henv as [->| ->]; simpl; eexists; reflexivity.
  - intros h inst. unfold llm_handler.get_llm_handler, __init__.
    destruct (or_else key env_key) as [k|]; [|discriminate].
    destruct (truthy k); [|discriminate].
    intros [= <- <-]. cbn [model api_url]. repeat split.
    + intros [->| ->]; reflexivity.
    + intros m -> Hm. unfold or_else. by rewrite Hm.
Qed.

Lemma contains_refl_app (needle post : pystr) : contains needle (needle ++ post).
Proof. exists [], post. reflexivity. Qed.

Lemma contains_app_r (needle pre hay : pystr) :
  contains needle hay -> contains needle (pre ++ hay).
Proof.
  intros (a & b & ->). exists (pre ++ a), b. by rewrite <- app_assoc.
Qed.

Ltac find_in_prompt :=
  repeat first [apply contains_refl_app | apply contains_app_r].

(** X12: each of the three prompts contains the rating in decimal and the
    review text as it was given, character for character. *)
Theorem prompts_embed_input (r : Z) (text : pystr) :
  contains (str_of_int r) (user_response_prompt r text) /\
  contains text (user_response_prompt r text) /\
  contains (str_of_int r) (admin_summary_prompt r text) /\
  contains text (admin_summary_prompt r text) /\
  contains (str_of_int r) (recommended_actions_prompt r text) /\
  contains text (recommended_actions_prompt r text).
Proof.
  unfold user_response_prompt, admin_summary_prompt,
    recommended_actions_prompt.
  repeat split; find_in_prompt.
Qed.




(** * Further properties of the submission path *)

(** A submission with a valid text and no key: nothing happens. *)
Lemma process_submission_no_key env r text w :
  10 <= len (strip text) ->
  or_else (user_dashboard.OPENROUTER_API_KEY env) None = None ->
  user_dashboard.process_submission env r text w =
    (user_dashboard.ConfigurationError
       (user_dashboard.warning_sign ++
        lit " API key not configured. Please set OPENROUTER_API_KEY environment variable."),
     w).
Proof.
  intros Hlen Hkey. unfold user_dashboard.process_submission.
  rewrite (long_text_truthy text Hlen). simpl.
  destruct (Z.ltb_spec (len (strip text)) 10); [lia|].
  unfold user_dashboard.try_body. by rewrite Hkey.
Qed.

(** A submission with a valid text and the key set. *)
Lemma process_submission_configured env r text w k :
  10 <= len (strip text) ->
  user_dashboard.OPENROUTER_API_KEY env = Some k -> truthy k = true ->
  user_dashboard.process_submission env r text w =
  let h := handler_for k w in
  let res := responses_for env h r text w in
  let sent' := user_dashboard.sent w ++
                 [user_request h r text; summary_request h r text;
                  actions_request h r text] in
  if sqlite_int r then
    let data :=
      {| user_dashboard.feedback_id :=
           sqlite_sequence (user_dashboard.db w) + 1;
         user_dashboard.rating := r;
         user_dashboard.review := text;
         user_dashboard.response := user_response res |} in
    (user_dashboard.Submitted data,
     {| user_dashboard.db :=
          {| feedback := feedback (user_dashboard.db w) ++
                           [submitted_row env res r text w];
             sqlite_sequence := sqlite_sequence (user_dashboard.db w) + 1 |};
        user_dashboard._llm_instance := Some h;
        user_dashboard.sent := sent';
        user_dashboard.response_data := Some data |})
  else
    (user_dashboard.ErrorShown
       (user_dashboard.cross_mark ++ lit " An error occurred: " ++
        lit "Python int too large to convert to SQLite INTEGER"),
     {| user_dashboard.db := user_dashboard.db w;
        user_dashboard._llm_instance := Some h;
        user_dashboard.sent := sent';
        user_dashboard.response_data := user_dashboard.response_data w |}).
Proof.
  intros Hlen Hk Ht. cbv zeta. unfold user_dashboard.process_submission.
  rewrite (long_text_truthy text Hlen). simpl.
  destruct (Z.ltb_spec (len (strip text)) 10); [lia|].
  rewrite (try_body_configured env r text w k Hk Ht).
  by destruct (sqlite_int r).
Qed.

(** The key of the environment is set and not empty, or it is not. *)
Lemma key_cases (key : option pystr) :
  or_else key None = None \/
  exists k, key = Some k /\ truthy k = true.
Proof.
  destruct (or_else key None) as [k|] eqn:E; [right|by left].
  exists k. by apply or_else_None_Some.
Qed.

(** X14: a submission ends in a validation error exactly when the trimmed
    text has fewer than 10 characters, whatever the rating, the key and
    the endpoint; the message asks for a review when the trimmed text is
    empty and for more detail otherwise. *)
Theorem validation_error_iff (env : user_dashboard.Env) (r : Z)
    (text : pystr) (w : user_dashboard.World) :
  ((exists msg, (user_dashboard.process_submission env r text w).1 =
                  user_dashboard.ValidationError msg) <->
   len (strip text) < 10) /\
  (strip text = [] ->
   (user_dashboard.process_submission env r text w).1 =
     user_dashboard.ValidationError
       (user_dashboard.cross_mark ++
        lit " Please write a review before submitting!")) /\
  (0 < len (strip text) < 10 ->
   (user_dashboard.process_submission env r text w).1 =
     user_dashboard.ValidationError
       (user_dashboard.cross_mark ++
        lit " Please provide a more detailed review (at least 10 characters)")).
Proof.
  split; [split|split].
  - intros [msg Hmsg].
    destruct (Z.lt_ge_cases (len (strip text)) 10) as [|Hlen]; [done|].
    exfalso.
    destruct (key_cases (user_dashboard.OPENROUTER_API_KEY env))
      as [Hkey|(k & Hk & Ht)].
    + by rewrite process_submission_no_key in Hmsg.
    + rewrite (process_submission_configured env r text w k) in Hmsg by done.
      cbv zeta in Hmsg. by destruct (sqlite_int r).
  - intros Hlen. unfold user_dashboard.process_submission.
    destruct (truthy (strip text)); simpl; [|by eexists].
    destruct (Z.ltb_spec (len (strip text)) 10); [by eexists|lia].
  - intros Hs. unfold user_dashboard.process_submission. by rewrite Hs.
  - intros [Hlo Hhi]. unfold user_dashboard.process_submission.
    destruct (strip text) as [|c s] eqn:E; [unfold len in Hlo; simpl in Hlo; lia|].
    simpl truthy. simpl negb. cbv iota.
    destruct (Z.ltb_spec (len (c :: s)) 10); [done|lia].
Qed.

(** X15: with a valid text but the key unset or empty, the submission ends
    in a configuration error and leaves the world as it was: no handler is
    built, no request is sent, nothing is stored. *)
Theorem missing_key_no_effect (env : user_dashboard.Env) (r : Z)
    (text : pystr) (w : user_dashboard.World) :
  10 <= len (strip text) ->
  user_dashboard.OPENROUTER_API_KEY env = None \/
  user_dashboard.OPENROUTER_API_KEY env = Some [] ->
  exists msg,
    user_dashboard.process_submission env r text w =
      (user_dashboard.ConfigurationError msg, w).
Proof.
  intros Hlen Hkey. eexists. apply process_submission_no_key; [done|].
  by destruct Hkey as [->| ->].
Qed.

Lemma missing_key_no_effect_witness :
  10 <= len (strip (lit "any valid text")) /\
  exists msg,
    user_dashboard.process_submission
      {| user_dashboard.now := 100;
         user_dashboard.OPENROUTER_API_KEY := Some [];
         user_dashboard.remote := unreachable_remote |}
      5 (lit "any valid text") user_dashboard.start =
      (user_dashboard.ConfigurationError msg, user_dashboard.start).
Proof.
  assert (H : 10 <= len (strip (lit "any valid text")))
    by (vm_compute; discriminate).
  split; [exact H|].
  apply (missing_key_no_effect
           {| user_dashboard.now := 100;
              user_dashboard.OPENROUTER_API_KEY := Some [];
              user_dashboard.remote := unreachable_remote |}
           5 (lit "any valid text") user_dashboard.start H).
  right. reflexivity.
Defined.

(** X16: every run of the form shows the rating of the slider and raises
    nothing: the display has as many filled stars as the rating, then
    hollow ones, five characters in all, and the description is the one
    the dict holds for the rating. Without the button pressed the run
    ends there and the world stays as it was; with the button pressed the
    block runs with the rating of the slider. *)
Theorem form_shows_rating (env : user_dashboard.Env)
    (handle : fin (length user_dashboard.rating_options)) (text : pystr)
    (submit : bool) (w : user_dashboard.World) :
  let r := user_dashboard.select_slider user_dashboard.rating_options handle in
  exists shown,
    user_dashboard.form_run env handle text submit w =
      (inr shown,
       if submit then (user_dashboard.process_submission env r text w).2
       else w) /\
    user_dashboard.star_rating shown =
      replicate (Z.to_nat r) 11088%N ++ replicate (Z.to_nat (5 - r)) 9734%N /\
    len (user_dashboard.star_rating shown) = 5 /\
    user_dashboard.rating_descriptions !! r =
      Some (user_dashboard.description shown) /\
    user_dashboard.outcome shown =
      if submit
      then Some (user_dashboard.process_submission env r text w).1
      else None.
Proof.
  cbv zeta.
  destruct (form_run_spec env handle text submit w) as (info & Hinfo & ->).
  pose proof (select_slider_range handle) as Hr.
  revert Hinfo Hr.
  generalize (user_dashboard.select_slider user_dashboard.rating_options
                handle).
  intros r Hinfo Hr. eexists. split; [reflexivity|].
  cbn [user_dashboard.star_rating user_dashboard.description
       user_dashboard.outcome].
  split; [|split; [|split; [exact Hinfo|reflexivity]]];
    destruct (rating_cases r Hr) as [->|[->|[->|[->| ->]]]]; reflexivity.
Qed.

(** What a submission does to the database: nothing, or one insert. *)
Lemma process_submission_db env r text w :
  let w' := (user_dashboard.process_submission env r text w).2 in
  user_dashboard.db w' = user_dashboard.db w \/
  exists row,
    id row = sqlite_sequence (user_dashboard.db w) + 1 /\
    user_dashboard.db w' =
      {| feedback := feedback (user_dashboard.db w) ++ [row];
         sqlite_sequence := sqlite_sequence (user_dashboard.db w) + 1 |}.
Proof.
  cbv zeta.
  destruct (Z.lt_ge_cases (len (strip text)) 10) as [Hshort|Hlen].
  - left. unfold user_dashboard.process_submission.
    destruct (truthy (strip text)); simpl; [|done].
    destruct (Z.ltb_spec (len (strip text)) 10); [done|lia].
  - destruct (key_cases (user_dashboard.OPENROUTER_API_KEY env))
      as [Hkey|(k & Hk & Ht)].
    + left. by rewrite process_submission_no_key.
    + rewrite (process_submission_configured env r text w k) by done.
      cbv zeta. destruct (sqlite_int r); [right|by left].
      eexists. split; [|reflexivity]. reflexivity.
Qed.

Lemma app_reachable_ids w :
  app_reachable w ->
  Forall (fun row => id row <= sqlite_sequence (user_dashboard.db w))
         (feedback (user_dashboard.db w)).
Proof.
  induction 1 as [|env r text w Hw IH|fid w Hw IH|w Hw IH].
  - constructor.
  - destruct (process_submission_db env r text w) as [->|(row & Hid & ->)];
      [done|].
    cbn [feedback sqlite_sequence]. apply Forall_app. split.
    + eapply Forall_impl; [exact IH|]. simpl. intros. lia.
    + repeat constructor. lia.
  - simpl. by apply Forall_filter_keep.
  - constructor.
Qed.

(** X17: a successful submission returns a receipt that matches the record
    it stored: the id of the receipt is the id of the new record and is
    above the id of every record already there, the record carries the
    rating, the clock time, the review text as it was typed (not trimmed)
    and the response shown to the user, and the session state holds the
    receipt. *)
Theorem receipt_matches_record (env : user_dashboard.Env) (r : Z)
    (text : pystr) (w w' : user_dashboard.World)
    (data : user_dashboard.ResponseData) :
  app_reachable w ->
  user_dashboard.process_submission env r text w =
    (user_dashboard.Submitted data, w') ->
  (exists a ra,
     feedback (user_dashboard.db w') =
       feedback (user_dashboard.db w) ++
       [mkRow (user_dashboard.feedback_id data) (user_dashboard.now env)
              r text (Some (user_dashboard.response data))
              (Some a) (Some ra)]) /\
  user_dashboard.rating data = r /\
  user_dashboard.review data = text /\
  user_dashboard.response_data w' = Some data /\
  (forall old, old ∈ feedback (user_dashboard.db w) ->
               id old < user_dashboard.feedback_id data) /\
  10 <= len (strip text).
Proof.
  intros Hw Hrun. pose proof (app_reachable_ids w Hw) as Hids.
  destruct (Z.lt_ge_cases (len (strip text)) 10) as [Hshort|Hlen].
  { exfalso. unfold user_dashboard.process_submission in Hrun.
    destruct (truthy (strip text)); simpl in Hrun; [|discriminate].
    destruct (Z.ltb_spec (len (strip text)) 10); [discriminate|lia]. }
  destruct (key_cases (user_dashboard.OPENROUTER_API_KEY env))
    as [Hkey|(k & Hk & Ht)].
  { by rewrite process_submission_no_key in Hrun. }
  rewrite (process_submission_configured env r text w k) in Hrun by done.
  cbv zeta in Hrun. destruct (sqlite_int r); [|discriminate].
  injection Hrun as <- <-.
  cbn [user_dashboard.db user_dashboard.response_data feedback
       user_dashboard.feedback_id user_dashboard.rating
       user_dashboard.review user_dashboard.response].
  split; [eexists _, _; reflexivity|]. repeat split; [|done].
  intros old Hold. rewrite Forall_forall in Hids.
  specialize (Hids old Hold). simpl in Hids. lia.
Qed.

Lemma receipt_matches_record_witness :
  app_reachable user_dashboard.start /\
  exists data w',
    user_dashboard.process_submission sample_env 4 (lit "  any valid text ")
      user_dashboard.start = (user_dashboard.Submitted data, w') /\
    user_dashboard.review data = lit "  any valid text " /\
    user_dashboard.response_data w' = Some data.
Proof.
  split; [exact app_start|].
  eexists _, _. split; [reflexivity|].
  destruct (receipt_matches_record sample_env 4 (lit "  any valid text ")
              user_dashboard.start _ _ app_start eq_refl)
    as (_ & _ & Hrev & Hdata & _).
  split; [exact Hrev|exact Hdata].
Defined.

(** X18: once the module holds a handler, every later submission keeps it
    and works with it: whatever key the environment then has, the requests
    a submission sends carry the key, the model and the address of that
    first handler. *)
Theorem handler_kept (env : user_dashboard.Env) (r : Z) (text : pystr)
    (w : user_dashboard.World) (h : LLMHandler) :
  user_dashboard._llm_instance w = Some h ->
  let w' := (user_dashboard.process_submission env r text w).2 in
  user_dashboard._llm_instance w' = Some h /\
  exists new,
    user_dashboard.sent w' = user_dashboard.sent w ++ new /\
    (new = [] \/ length new = 3%nat) /\
    Forall (fun q => authorization q = lit "Bearer " ++ api_key h /\
                     req_model q = model h /\ url q = api_url h) new.
Proof.
  intros Hinst. cbv zeta.
  destruct (Z.lt_ge_cases (len (strip text)) 10) as [Hshort|Hlen].
  { assert (Hsame : (user_dashboard.process_submission env r text w).2 = w).
    { unfold user_dashboard.process_submission.
      destruct (truthy (strip text)); simpl; [|done].
      destruct (Z.ltb_spec (len (strip text)) 10); [done|lia]. }
    rewrite Hsame. split; [done|]. exists []. rewrite app_nil_r.
    repeat split; auto. }
  destruct (key_cases (user_dashboard.OPENROUTER_API_KEY env))
    as [Hkey|(k & Hk & Ht)].
  { rewrite process_submission_no_key by done. split; [done|].
    exists []. rewrite app_nil_r. repeat split; auto. }
  rewrite (process_submission_configured env r text w k) by done.
  cbv zeta.
  assert (Hh : handler_for k w = h) by (unfold handler_for; by rewrite Hinst).
  rewrite Hh.
  destruct (sqlite_int r);
    cbn [snd user_dashboard._llm_instance user_dashboard.sent];
    (split; [done|]); eexists; (split; [reflexivity|]);
    (split; [by right|]); repeat constructor.
Qed.

Lemma handler_kept_witness :
  let w1 := (user_dashboard.process_submission sample_env 5
               (lit "any valid text") user_dashboard.start).2 in
  let env2 := {| user_dashboard.now := 200;
                 user_dashboard.OPENROUTER_API_KEY := Some (lit "sk-other");
                 user_dashboard.remote := unreachable_remote |} in
  user_dashboard._llm_instance w1 = Some sample_llm /\
  user_dashboard._llm_instance
    (user_dashboard.process_submission env2 3 (lit "another valid text") w1).2
    = Some sample_llm.
Proof.
  cbv zeta. split; [reflexivity|].
  apply (handler_kept
           {| user_dashboard.now := 200;
              user_dashboard.OPENROUTER_API_KEY := Some (lit "sk-other");
              user_dashboard.remote := unreachable_remote |}
           3 (lit "another valid text")
           (user_dashboard.process_submission sample_env 5
              (lit "any valid text") user_dashboard.start).2
           sample_llm eq_refl).
Defined.

(** X19: every record stored through the application has a review text of
    trimmed length at least 10 and a rating that fits a 64-bit integer:
    the check of the text comes before the insert, and deletions only
    remove records. *)
Theorem stored_reviews_valid (w : user_dashboard.World) :
  app_reachable w ->
  Forall (fun row => 10 <= len (strip (review_text row)) /\
                     sqlite_int (rating row) = true)
         (feedback (user_dashboard.db w)).
Proof.
  induction 1 as [|env r text w Hw IH|fid w Hw IH|w Hw IH].
  - constructor.
  - destruct (Z.lt_ge_cases (len (strip text)) 10) as [Hshort|Hlen].
    { assert (Hsame : (user_dashboard.process_submission env r text w).2 = w).
      { unfold user_dashboard.process_submission.
        destruct (truthy (strip text)); simpl; [|done].
        destruct (Z.ltb_spec (len (strip text)) 10); [done|lia]. }
      by rewrite Hsame. }
    destruct (key_cases (user_dashboard.OPENROUTER_API_KEY env))
      as [Hkey|(k & Hk & Ht)].
    { by rewrite process_submission_no_key. }
    rewrite (process_submission_configured env r text w k) by done.
    cbv zeta. destruct (sqlite_int r) eqn:Hint; [|done].
    cbn [snd user_dashboard.db feedback].
    apply Forall_app. split; [done|].
    repeat constructor; done.
  - simpl. by apply Forall_filter_keep.
  - constructor.
Qed.

Lemma stored_reviews_valid_witness :
  app_reachable
    (user_dashboard.process_submission sample_env 5 (lit "  any valid text ")
       user_dashboard.start).2 /\
  map review_text
    (feedback (user_dashboard.db
       (user_dashboard.process_submission sample_env 5
          (lit "  any valid text ") user_dashboard.start).2)) =
    [lit "  any valid text "] /\
  Forall (fun row => 10 <= len (strip (review_text row)) /\
                     sqlite_int (rating row) = true)
    (feedback (user_dashboard.db
       (user_dashboard.process_submission sample_env 5
          (lit "  any valid text ") user_dashboard.start).2)).
Proof.
  assert (H : app_reachable
    (user_dashboard.process_submission sample_env 5 (lit "  any valid text ")
       user_dashboard.start).2)
    by (apply app_submit, app_start).
  split; [exact H|]. split; [reflexivity|].
  exact (stored_reviews_valid _ H).
Defined.

(** * Properties of the admin dashboard *)

Lemma count_rating_order_by k rows :
  Z.of_nat (length (filter (fun r => rating r = k)
                           (order_by_timestamp_desc rows))) =
  count_rating k rows.
Proof. by rewrite filter_order_by, order_by_length. Qed.

Lemma count_ratings_one_to_five rows :
  Forall (fun r => 1 <= rating r <= 5) rows ->
  count_rating 5 rows + count_rating 4 rows + count_rating 3 rows +
  count_rating 2 rows + count_rating 1 rows = Z.of_nat (length rows).
Proof.
  unfold count_rating.
  induction 1 as [|r rows Hr Hrows IH]; [done|].
  rewrite !filter_cons.
  destruct (decide (rating r = 5)), (decide (rating r = 4)),
    (decide (rating r = 3)), (decide (rating r = 2)),
    (decide (rating r = 1)); simpl length; lia.
Qed.

(** X20: the metrics of the admin dashboard split the records three ways:
    the positive ones (rating at least 4), the negative ones (rating at
    most 2) and those rated 3 add up to all records, and the class of a
    card is the band the response generator uses for the same rating. *)
Theorem sentiment_partition (df : list Row) :
  admin_dashboard.positive_count df + admin_dashboard.negative_count df +
    count_rating 3 df = Z.of_nat (length df) /\
  (forall r,
     (admin_dashboard.card_class r = admin_dashboard.positive_feedback <->
      band r = High) /\
     (admin_dashboard.card_class r = admin_dashboard.negative_feedback <->
      band r = Low) /\
     (admin_dashboard.card_class r = admin_dashboard.neutral_feedback <->
      band r = Medium)) /\
  (forall r,
     (admin_dashboard.card_class r = admin_dashboard.positive_feedback <->
      r >= 4) /\
     (admin_dashboard.card_class r = admin_dashboard.negative_feedback <->
      r <= 2) /\
     (admin_dashboard.card_class r = admin_dashboard.neutral_feedback <->
      r = 3)).
Proof.
  split; [|split].
  - unfold admin_dashboard.positive_count, admin_dashboard.negative_count,
      count_rating.
    induction df as [|r df IH]; [done|].
    rewrite !filter_cons.
    destruct (decide (rating r >= 4)), (decide (rating r <= 2)),
      (decide (rating r = 3)); simpl length; lia.
  - intros r. unfold admin_dashboard.card_class, band.
    destruct (Z.geb_spec r 4), (Z.leb_spec r 2), (Z.eqb_spec r 3);
      try lia; repeat split; try discriminate; reflexivity.
  - intros r. unfold admin_dashboard.card_class.
    destruct (Z.geb_spec r 4); [|destruct (Z.leb_spec r 2)];
      repeat split; try discriminate; try lia; reflexivity.
Qed.

(** X21: the rating breakdown of the sidebar lists the ratings 5 down to 1,
    each with the count [rating_distribution] has for it (0 when it has no
    entry); when every rating is between 1 and 5 the five counts add up to
    [total_submissions]. The page shows its notice for an empty store
    exactly when [total_submissions] is 0. *)
Theorem rating_breakdown_agrees (now : Z) (d : FeedbackDatabase) :
  let df := get_all_feedback d in
  let stats := get_statistics now d in
  map fst (admin_dashboard.rating_breakdown df) = [5; 4; 3; 2; 1] /\
  (forall k c, (k, c) ∈ admin_dashboard.rating_breakdown df ->
     c = default 0 (rating_distribution stats !! k)) /\
  (Forall (fun r => 1 <= rating r <= 5) (feedback d) ->
   sum (map snd (admin_dashboard.rating_breakdown df)) =
   total_submissions stats) /\
  (admin_dashboard.load_data now d = None <-> total_submissions stats = 0) /\
  (forall df' stats', admin_dashboard.load_data now d = Some (df', stats') ->
     df' = df /\ stats' = stats /\ 0 < total_submissions stats).
Proof.
  cbv zeta.
  assert (Hentry : forall k,
    Z.of_nat (length (filter (fun r => rating r = k) (get_all_feedback d))) =
    default 0 (rating_distribution (get_statistics now d) !! k)).
  { intros k. unfold get_all_feedback.
    rewrite count_rating_order_by, rating_distribution_lookup.
    pose proof (count_rating_nonneg k (feedback d)).
    destruct (decide (0 < count_rating k (feedback d))); simpl; lia. }
  split; [reflexivity|]. split; [|split; [|split]].
  - intros k c Hin. unfold admin_dashboard.rating_breakdown in Hin.
    apply list_elem_of_fmap in Hin as (k' & [= -> ->] & _). apply Hentry.
  - intros Hr. unfold admin_dashboard.rating_breakdown, get_all_feedback.
    cbn [map snd sum foldr]. rewrite !count_rating_order_by.
    cbn [total_submissions get_statistics].
    rewrite <- (count_ratings_one_to_five _ Hr). lia.
  - unfold admin_dashboard.load_data, get_all_feedback.
    rewrite order_by_length. cbn [total_submissions get_statistics].
    destruct (Z.eqb_spec (Z.of_nat (length (feedback d))) 0);
      split; try done; try lia.
  - intros df' stats'. unfold admin_dashboard.load_data, get_all_feedback.
    rewrite order_by_length. cbn [total_submissions get_statistics].
    destruct (Z.eqb_spec (Z.of_nat (length (feedback d))) 0); [done|].
    intros [= <- <-]. repeat split. lia.
Qed.
